(** * PeopleSync API: friends, groups, chats and messages

    A shallow embedding of the Express route handlers of the PeopleSync
    API over an explicit model of the four Mongoose collections, and the
    properties of the relationship graph and of message routing that are
    checked against it.

    Conventions of the embedding.
    - An ObjectId is a [nat]; identifiers arrive in canonical form, so
      the string held by [req.userId] and the ObjectId stored in a
      document compare as equal exactly when the numbers are equal.
    - A collection is the list of its documents in natural order;
      [findOne] returns the first match.
    - A handler is a function from the request's inputs and the state
      before the request to the HTTP response and the state after it.
      An exception caught by the handler's [try]/[catch] is the response
      the [catch] block sends.
    - [doc.save()] sends the changes recorded on the document: a [push]
      is appended to the stored array, a [pull] removes from it, an
      assignment that changed the value replaces the stored field, and
      one that changed nothing is not sent.
    - Mongoose keeps a version on every record.  A save that writes
      increments it, and a save that carries an assignment to an array
      is sent with the version its document was loaded under and throws
      a VersionError when the stored version has moved on.  A handler
      loads its documents before it saves any, so this happens exactly
      when a handler saves two copies of one record: see
      [versionError]. *)

From Stdlib Require Import List Arith Bool String Lia.
Import ListNotations.
Open Scope string_scope.
Open Scope list_scope.
Open Scope nat_scope.

Set Implicit Arguments.

(** ** Documents (src/api/schema) *)

Definition ObjectId := nat.

(** schema/user.js *)
Record User := mkUser {
  u_id : ObjectId;
  username : string;
  passwordHash : string;
  connected : bool;
  friends : list ObjectId;
  friendRequests : list ObjectId;
  groups : list ObjectId
}.

(** schema/chat.js *)
Record Chat := mkChat {
  c_id : ObjectId;
  c_participants : list ObjectId;
  c_messages : list ObjectId
}.

(** schema/group.js *)
Record Group := mkGroup {
  g_id : ObjectId;
  g_name : string;
  g_participants : list ObjectId;
  g_messages : list ObjectId;
  createdAt : nat
}.

(** schema/message.js *)
Record Message := mkMessage {
  m_id : ObjectId;
  sender : ObjectId;
  content : string;
  timestamp : nat;
  isRead : bool;
  chat : option ObjectId;
  group : option ObjectId
}.

(** The database, the ObjectId generator and the socket.io rooms
    (pairs of a session and the channel it joined). *)
Record State := mkState {
  users : list User;
  chats : list Chat;
  groupsC : list Group;
  messages : list Message;
  next_id : ObjectId;
  rooms : list (nat * ObjectId)
}.

Definition set_users (s : State) (us : list User) : State :=
  mkState us (chats s) (groupsC s) (messages s) (next_id s) (rooms s).

Definition set_chats (s : State) (cs : list Chat) : State :=
  mkState (users s) cs (groupsC s) (messages s) (next_id s) (rooms s).

Definition set_groups (s : State) (gs : list Group) : State :=
  mkState (users s) (chats s) gs (messages s) (next_id s) (rooms s).

Definition set_messages (s : State) (ms : list Message) : State :=
  mkState (users s) (chats s) (groupsC s) ms (next_id s) (rooms s).

Definition set_rooms (s : State) (rs : list (nat * ObjectId)) : State :=
  mkState (users s) (chats s) (groupsC s) (messages s) (next_id s) rs.

(** [new Model(...)] draws a fresh ObjectId. *)
Definition bump (s : State) : State :=
  mkState (users s) (chats s) (groupsC s) (messages s) (S (next_id s)) (rooms s).

(** ** Collection primitives *)

Section Collection.
Variable A : Type.
Variable key : A -> ObjectId.

(** [Model.findById(i)] *)
Definition findById (i : ObjectId) (l : list A) : option A :=
  find (fun r => key r =? i) l.

(** The write of [doc.save()] and of [Model.findByIdAndUpdate(i, ...)]:
    the first record with that [_id] is changed, nothing happens when
    there is none. *)
Fixpoint updateById (i : ObjectId) (f : A -> A) (l : list A) : list A :=
  match l with
  | [] => []
  | r :: t => if key r =? i then f r :: t else r :: updateById i f t
  end.

(** [Model.updateMany(p, ...)] *)
Definition updateMany (p : A -> bool) (f : A -> A) (l : list A) : list A :=
  map (fun r => if p r then f r else r) l.

(** [populate]: every reference is replaced by the document it names;
    a reference to no document is dropped from a populated array. *)
Definition populateMany (ids : list ObjectId) (l : list A) : list A :=
  flat_map (fun i => match findById i l with
                     | Some r => [r]
                     | None => []
                     end) ids.
End Collection.

(** [arr.includes(i)] on an array of ObjectIds *)
Definition includes (l : list ObjectId) (i : ObjectId) : bool :=
  existsb (fun j => j =? i) l.

(** [arr.filter(id => !id.equals(i))] and [arr.pull(i)] *)
Definition without (i : ObjectId) (l : list ObjectId) : list ObjectId :=
  filter (fun j => negb (j =? i)) l.

(** [User.findOne({ username })] *)
Definition findByUsername (name : string) (l : list User) : option User :=
  find (fun u => String.eqb (username u) name) l.

(** [!username] *)
Definition falsy (x : string) : bool :=
  match x with
  | EmptyString => true
  | _ => false
  end.

(** Whether the assignment [doc.path = value] changed the array held
    at the path: Mongoose marks the path as modified only when the new
    value differs from the one loaded. *)
Definition changed (value loaded : list ObjectId) : bool :=
  if list_eq_dec Nat.eq_dec value loaded then false else true.

(** The second [save()] of a handler, on the document [second], after the
    [save()] of [first]: it throws a VersionError when the first save
    wrote ([written]), so that the stored version moved on, the second
    carries an assignment to an array ([assigned]), which is sent with
    the version loaded, and the two documents are copies of one
    record. *)
Definition versionError (written assigned : bool) (first second : User)
  : bool :=
  written && assigned && (u_id first =? u_id second).

(** ** Responses *)

Definition OK := 200.
Definition Created := 201.
Definition BadRequest := 400.
Definition Unauthorized := 401.
Definition Forbidden := 403.
Definition NotFound := 404.
Definition Conflict := 409.
Definition Internal := 500.

Record Identity := mkIdentity {
  i_id : ObjectId;
  i_username : string
}.

(** A message whose [sender] path has been populated. *)
Record Populated (S : Type) := mkPopulated {
  p_message : Message;
  p_sender : option S
}.

Record Friend := mkFriend {
  f_id : ObjectId;
  f_username : string;
  f_chatId : option ObjectId
}.

Inductive Body :=
| BNone
| BText (message : string)
| BToken (token : string)
| BThrown
| BIdentity (name : string) (id : ObjectId)
| BRelations (fs rs : list Identity)
| BGroup (g : Group)
| BChat (c : Chat)
| BPosted (m : Populated Identity)
| BMessage (m : option (Populated User))
| BMessages (ms : list (Populated User))
| BUpdated (m : option Message)
| BMe (id : ObjectId) (name : string) (online : bool)
      (fs : list Friend) (rs gs : list Identity).

Record Response := mkResponse {
  status : nat;
  body : Body
}.

Definition sendStatus (n : nat) : Response := mkResponse n BNone.
Definition thrown : Response := mkResponse Internal BThrown.

Definition identity (u : User) : Identity := mkIdentity (u_id u) (username u).

(** ** Changes a handler makes to a document *)

Definition push_friend (i : ObjectId) (u : User) : User :=
  mkUser (u_id u) (username u) (passwordHash u) (connected u)
         (friends u ++ [i]) (friendRequests u) (groups u).

Definition push_friendRequest (i : ObjectId) (u : User) : User :=
  mkUser (u_id u) (username u) (passwordHash u) (connected u)
         (friends u) (friendRequests u ++ [i]) (groups u).

Definition set_friendRequests (l : list ObjectId) (u : User) : User :=
  mkUser (u_id u) (username u) (passwordHash u) (connected u)
         (friends u) l (groups u).

Definition set_friends (l : list ObjectId) (u : User) : User :=
  mkUser (u_id u) (username u) (passwordHash u) (connected u)
         l (friendRequests u) (groups u).

Definition push_group (g : ObjectId) (u : User) : User :=
  mkUser (u_id u) (username u) (passwordHash u) (connected u)
         (friends u) (friendRequests u) (groups u ++ [g]).

Definition pull_group (g : ObjectId) (u : User) : User :=
  mkUser (u_id u) (username u) (passwordHash u) (connected u)
         (friends u) (friendRequests u) (without g (groups u)).

Definition push_participant (i : ObjectId) (g : Group) : Group :=
  mkGroup (g_id g) (g_name g) (g_participants g ++ [i]) (g_messages g)
          (createdAt g).

Definition pull_participant (i : ObjectId) (g : Group) : Group :=
  mkGroup (g_id g) (g_name g) (without i (g_participants g)) (g_messages g)
          (createdAt g).

Definition push_group_message (m : ObjectId) (g : Group) : Group :=
  mkGroup (g_id g) (g_name g) (g_participants g) (g_messages g ++ [m])
          (createdAt g).

Definition push_chat_message (m : ObjectId) (c : Chat) : Chat :=
  mkChat (c_id c) (c_participants c) (c_messages c ++ [m]).

Definition set_isRead (b : bool) (m : Message) : Message :=
  mkMessage (m_id m) (sender m) (content m) (timestamp m) b (chat m) (group m).

(** ** router/users/friends.js *)

(** [friendsRouter.get("/")].  A missing user is answered with 404; the
    handler then goes on, and the exception it runs into can no longer
    change the response. *)
Definition listRelationships (actor : ObjectId) (s : State)
  : Response * State :=
  match findById u_id actor (users s) with
  | None => (sendStatus NotFound, s)
  | Some user =>
      (mkResponse OK
         (BRelations
            (map identity (populateMany u_id (friends user) (users s)))
            (map identity (populateMany u_id (friendRequests user) (users s)))),
       s)
  end.

(** [friendsRouter.post("/")] *)
Definition sendFriendRequest (actor : ObjectId) (name : string) (s : State)
  : Response * State :=
  if falsy name then (sendStatus BadRequest, s) else
  match findByUsername name (users s) with
  | None => (sendStatus NotFound, s)
  | Some friend =>
      match findById u_id actor (users s) with
      | None => (sendStatus Internal, s)
      | Some user =>
          if includes (friends user) (u_id friend)
          then (sendStatus Conflict, s)
          else
            let s1 := set_users s
                        (updateById u_id (u_id friend)
                           (push_friendRequest (u_id user)) (users s)) in
            (mkResponse OK (BIdentity (username friend) (u_id friend)), s1)
      end
  end.

(** [friendsRouter.delete("/:username")].  Both documents are filtered in
    memory and then saved, the friend's first; each save sends its
    filtered array only when the filter removed something.  When the
    second save throws, the handler answers 500 and what the first save
    wrote stays. *)
Definition removeFriend (actor : ObjectId) (name : string) (s : State)
  : Response * State :=
  if falsy name then (sendStatus BadRequest, s) else
  match findByUsername name (users s) with
  | None => (sendStatus NotFound, s)
  | Some friend =>
      match findById u_id actor (users s) with
      | None => (sendStatus Internal, s)
      | Some user =>
          let mine := without (u_id friend) (friends user) in
          let theirs := without (u_id user) (friends friend) in
          let written := changed theirs (friends friend) in
          let assigned := changed mine (friends user) in
          let us1 := updateById u_id (u_id friend)
                       (fun r => set_friends
                                   (if written then theirs else friends r) r)
                       (users s) in
          if versionError written assigned friend user
          then (sendStatus Internal, set_users s us1)
          else
            let us2 := updateById u_id (u_id user)
                         (fun r => set_friends
                                     (if assigned then mine else friends r) r)
                         us1 in
            (mkResponse OK (BIdentity (username friend) (u_id friend)),
             set_users s us2)
      end
  end.

(** [friendsRouter.put("/accept")].  [friend.save()] appends the actor to
    the stored friends of the target.  [user.save()] then appends the
    target to the actor's stored friends and, when the filter removed
    something, replaces the actor's stored requests by the filtered
    array.  When [user.save()] throws, the handler answers 500 and what
    [friend.save()] wrote stays. *)
Definition acceptFriendRequest (actor : ObjectId) (name : string) (s : State)
  : Response * State :=
  if falsy name then (sendStatus BadRequest, s) else
  match findByUsername name (users s) with
  | None => (sendStatus NotFound, s)
  | Some friend =>
      match findById u_id actor (users s) with
      | None => (sendStatus Internal, s)
      | Some user =>
          let requests := without (u_id friend) (friendRequests user) in
          let assigned := changed requests (friendRequests user) in
          let us1 := updateById u_id (u_id friend)
                       (push_friend (u_id user)) (users s) in
          if versionError true assigned friend user
          then (sendStatus Internal, set_users s us1)
          else
            let us2 := updateById u_id (u_id user)
                         (fun r => push_friend (u_id friend)
                                     (set_friendRequests
                                        (if assigned then requests
                                         else friendRequests r) r))
                         us1 in
            (mkResponse OK (BIdentity (username friend) (u_id friend)),
             set_users s us2)
      end
  end.

(** [friendsRouter.put("/reject")] *)
Definition rejectFriendRequest (actor : ObjectId) (name : string) (s : State)
  : Response * State :=
  if falsy name then (sendStatus BadRequest, s) else
  match findByUsername name (users s) with
  | None => (sendStatus NotFound, s)
  | Some friend =>
      match findById u_id actor (users s) with
      | None => (sendStatus Internal, s)
      | Some user =>
          let requests := without (u_id friend) (friendRequests user) in
          (mkResponse OK (BIdentity (username friend) (u_id friend)),
           set_users s
             (updateById u_id (u_id user) (set_friendRequests requests)
                (users s)))
      end
  end.

(** ** router/users/register.js

    [hashed] is what [bcrypt.hash(password, 10)] returned.  The unique
    index on [username] makes [user.save()] throw for a name that is
    taken, and the handler answers every such exception with 409. *)
Definition register (name password hashed : string) (s : State)
  : Response * State :=
  if falsy name || falsy password then (sendStatus BadRequest, s) else
  match findByUsername name (users s) with
  | Some _ => (sendStatus Conflict, s)
  | None =>
      let user := mkUser (next_id s) name hashed false [] [] [] in
      (sendStatus Created, set_users (bump s) (users s ++ [user]))
  end.

(** ** router/users/login.js

    The handler reads the user collection through [usersModel], the name
    it imports from the schema module.  The schema module of the other
    handlers exports the model as [User] and exports no [usersModel], so
    the name is bound to [undefined] and [usersModel.findOne] throws
    inside the [try].  [passwordMatch] is what [bcrypt.compare] would
    answer and [token] what [jwt.sign] would return. *)
Definition usersModel : option (State -> list User) := None.

Definition login (name password : string) (passwordMatch : bool)
    (token : string) (s : State) : Response * State :=
  if falsy name || falsy password then (sendStatus BadRequest, s) else
  match usersModel with
  | None => (sendStatus Internal, s)
  | Some model =>
      match findByUsername name (model s) with
      | None => (sendStatus NotFound, s)
      | Some _ =>
          if passwordMatch then (mkResponse OK (BToken token), s)
          else (sendStatus Unauthorized, s)
      end
  end.

(** ** router/users/me.js *)

(** [Chat.findOne] for the chat of exactly two participants that holds
    both users. *)
Definition findDirectChat (a b : ObjectId) (l : list Chat) : option Chat :=
  find (fun c => includes (c_participants c) a
                 && includes (c_participants c) b
                 && (List.length (c_participants c) =? 2)) l.

Definition me (actor : ObjectId) (s : State) : Response * State :=
  match findById u_id actor (users s) with
  | None => (thrown, s)
  | Some user =>
      let fs := map (fun f => mkFriend (u_id f) (username f)
                                (option_map c_id
                                   (findDirectChat (u_id user) (u_id f)
                                      (chats s))))
                    (populateMany u_id (friends user) (users s)) in
      let rs := map identity
                    (populateMany u_id (friendRequests user) (users s)) in
      let gs := map (fun g => mkIdentity (g_id g) (g_name g))
                    (populateMany g_id (groups user) (groupsC s)) in
      (mkResponse OK
         (BMe (u_id user) (username user) (connected user) fs rs gs), s)
  end.

(** ** router/groups/index.js *)

(** [router.post('/')].  [name] is required by the schema, so saving a
    group without one throws. *)
Definition createGroup (name : string) (participants : list ObjectId)
    (now : nat) (s : State) : Response * State :=
  if falsy name then (thrown, s) else
  let g := mkGroup (next_id s) name participants [] now in
  let s1 := set_groups (bump s) (groupsC s ++ [g]) in
  let s2 := set_users s1
              (updateMany (fun u => includes participants (u_id u))
                 (push_group (g_id g)) (users s1)) in
  (mkResponse Created (BGroup g), s2).

Definition notAuthorized : Response :=
  mkResponse Forbidden (BText "Not authorized.").

(** [router.post('/:groupId/users')] *)
Definition addGroupMember (actor gid uid : ObjectId) (s : State)
  : Response * State :=
  match findById g_id gid (groupsC s) with
  | None => (notAuthorized, s)
  | Some g =>
      if negb (includes (g_participants g) actor) then (notAuthorized, s)
      else if negb (includes (g_participants g) uid) then
        let s1 := set_groups s
                    (updateById g_id (g_id g) (push_participant uid)
                       (groupsC s)) in
        let s2 := set_users s1
                    (updateById u_id uid (push_group (g_id g)) (users s1)) in
        (mkResponse OK (BGroup (push_participant uid g)), s2)
      else
        (mkResponse BadRequest (BText "User is already in the group."), s)
  end.

(** [router.delete('/:groupId/users/:userId')] *)
Definition removeGroupMember (actor gid uid : ObjectId) (s : State)
  : Response * State :=
  match findById g_id gid (groupsC s) with
  | None => (notAuthorized, s)
  | Some g =>
      if negb (includes (g_participants g) actor) then (notAuthorized, s)
      else if includes (g_participants g) uid then
        let s1 := set_groups s
                    (updateById g_id (g_id g) (pull_participant uid)
                       (groupsC s)) in
        let s2 := set_users s1
                    (updateById u_id uid (pull_group (g_id g)) (users s1)) in
        (mkResponse OK (BGroup (pull_participant uid g)), s2)
      else
        (mkResponse BadRequest (BText "User is not in the group."), s)
  end.

(** ** router/chats/index.js *)

(** [router.post('/')] *)
Definition createChat (actor : ObjectId) (participants : list ObjectId)
    (s : State) : Response * State :=
  if negb (includes participants actor) then
    (mkResponse BadRequest (BText "You must be a participant in the chat."), s)
  else
    let c := mkChat (next_id s) participants [] in
    (mkResponse Created (BChat c), set_chats (bump s) (chats s ++ [c])).

(** [populate('sender')] on one message *)
Definition populateSender (s : State) (m : Message) : Populated User :=
  mkPopulated m (findById u_id (sender m) (users s)).

(** [router.get('/:chatId/messages')] *)
Definition listMessages (actor cid : ObjectId) (s : State)
  : Response * State :=
  match findById c_id cid (chats s) with
  | None => (notAuthorized, s)
  | Some c =>
      if negb (includes (c_participants c) actor) then (notAuthorized, s)
      else
        (mkResponse OK
           (BMessages
              (map (populateSender s)
                 (populateMany m_id (c_messages c) (messages s)))), s)
  end.

(** ** router/messages/index.js *)

(** The sessions [io.to(chat || group).emit("newMessage", ...)] reaches. *)
Definition channel (chat group : option ObjectId) : option ObjectId :=
  match chat with
  | Some c => Some c
  | None => group
  end.

Definition subscribers (ch : option ObjectId) (s : State) : list nat :=
  match ch with
  | None => []
  | Some c => map fst (filter (fun r => snd r =? c) (rooms s))
  end.

(** [router.post('/')].  [content] is required by the schema, so saving a
    message without one throws before anything is written.  No test on
    [chat] and [group] precedes [message.save()]. *)
Definition postMessage (actor : ObjectId) (text : string)
    (chat group : option ObjectId) (now : nat) (s : State)
  : Response * State :=
  if falsy text then (thrown, s) else
  let m := mkMessage (next_id s) actor text now false chat group in
  let s1 := set_messages (bump s) (messages s ++ [m]) in
  let s2 := match chat with
            | Some c =>
                set_chats s1
                  (updateById c_id c (push_chat_message (m_id m)) (chats s1))
            | None =>
                match group with
                | Some g =>
                    set_groups s1
                      (updateById g_id g (push_group_message (m_id m))
                         (groupsC s1))
                | None => s1
                end
            end in
  (mkResponse Created
     (BPosted (mkPopulated m
                 (option_map identity (findById u_id actor (users s2))))),
   s2).

(** [router.get('/:messageId')]: whatever [findById] gives, [null]
    included, is sent with the default status. *)
Definition getMessage (mid : ObjectId) (s : State) : Response * State :=
  (mkResponse OK
     (BMessage (option_map (populateSender s)
                  (findById m_id mid (messages s)))), s).

(** [router.put('/:messageId')] *)
Definition setReadStatus (mid : ObjectId) (b : bool) (s : State)
  : Response * State :=
  let ms := updateById m_id mid (set_isRead b) (messages s) in
  (mkResponse OK (BUpdated (findById m_id mid ms)), set_messages s ms).

(** ** The socket handlers of the server *)

Definition inRoom (session : nat) (ch : ObjectId) (s : State) : bool :=
  existsb (fun r => (fst r =? session) && (snd r =? ch)) (rooms s).

Definition joinChat (session : nat) (ch : ObjectId) (s : State) : State :=
  if inRoom session ch s then s else set_rooms s (rooms s ++ [(session, ch)]).

Definition leaveChat (session : nat) (ch : ObjectId) (s : State) : State :=
  set_rooms s
    (filter (fun r => negb ((fst r =? session) && (snd r =? ch))) (rooms s)).

(** ** The operations of the server as one transition function *)

Inductive Request :=
| Register (name password hashed : string)
| Login (name password : string) (passwordMatch : bool) (token : string)
| Me (actor : ObjectId)
| ListRelationships (actor : ObjectId)
| SendFriendRequest (actor : ObjectId) (name : string)
| RemoveFriend (actor : ObjectId) (name : string)
| AcceptFriendRequest (actor : ObjectId) (name : string)
| RejectFriendRequest (actor : ObjectId) (name : string)
| CreateGroup (name : string) (participants : list ObjectId) (now : nat)
| AddGroupMember (actor gid uid : ObjectId)
| RemoveGroupMember (actor gid uid : ObjectId)
| CreateChat (actor : ObjectId) (participants : list ObjectId)
| ListMessages (actor cid : ObjectId)
| PostMessage (actor : ObjectId) (text : string)
              (chat group : option ObjectId) (now : nat)
| GetMessage (mid : ObjectId)
| SetReadStatus (mid : ObjectId) (b : bool)
| JoinChat (session : nat) (ch : ObjectId)
| LeaveChat (session : nat) (ch : ObjectId).

Definition handle (q : Request) (s : State) : Response * State :=
  match q with
  | Register n p h => register n p h s
  | Login n p b k => login n p b k s
  | Me a => me a s
  | ListRelationships a => listRelationships a s
  | SendFriendRequest a n => sendFriendRequest a n s
  | RemoveFriend a n => removeFriend a n s
  | AcceptFriendRequest a n => acceptFriendRequest a n s
  | RejectFriendRequest a n => rejectFriendRequest a n s
  | CreateGroup n ps t => createGroup n ps t s
  | AddGroupMember a g u => addGroupMember a g u s
  | RemoveGroupMember a g u => removeGroupMember a g u s
  | CreateChat a ps => createChat a ps s
  | ListMessages a c => listMessages a c s
  | PostMessage a t c g n => postMessage a t c g n s
  | GetMessage m => getMessage m s
  | SetReadStatus m b => setReadStatus m b s
  | JoinChat x c => (sendStatus OK, joinChat x c s)
  | LeaveChat x c => (sendStatus OK, leaveChat x c s)
  end.

(** The state after a sequence of requests. *)
Fixpoint run (qs : list Request) (s : State) : State :=
  match qs with
  | [] => s
  | q :: t => run t (snd (handle q s))
  end.

(** ** Observations on a state *)

(** The friends stored for a user. *)
Definition friendsOf (i : ObjectId) (s : State) : list ObjectId :=
  match findById u_id i (users s) with
  | Some u => friends u
  | None => []
  end.

(** The pending requests stored for a user. *)
Definition requestsOf (i : ObjectId) (s : State) : list ObjectId :=
  match findById u_id i (users s) with
  | Some u => friendRequests u
  | None => []
  end.

(** The participants stored for a chat and for a group. *)
Definition chatParticipants (i : ObjectId) (s : State)
  : option (list ObjectId) :=
  option_map c_participants (findById c_id i (chats s)).

Definition groupParticipants (i : ObjectId) (s : State)
  : option (list ObjectId) :=
  option_map g_participants (findById g_id i (groupsC s)).

(** The groups stored for a user. *)
Definition groupsOf (i : ObjectId) (s : State) : list ObjectId :=
  match findById u_id i (users s) with
  | Some u => groups u
  | None => []
  end.

(** The message ids stored for a chat and for a group. *)
Definition chatMessages (i : ObjectId) (s : State)
  : option (list ObjectId) :=
  option_map c_messages (findById c_id i (chats s)).

Definition groupMessages (i : ObjectId) (s : State)
  : option (list ObjectId) :=
  option_map g_messages (findById g_id i (groupsC s)).

(** ** A small database used in the examples

    alice (1), bob (2) and carol (3); bob has asked alice to be friends;
    alice and bob share chat 20, which holds message 30, and group 10. *)

Definition alice : User := mkUser 1 "alice" "h1" false [] [2] [10].
Definition bob : User := mkUser 2 "bob" "h2" false [] [] [10].
Definition carol : User := mkUser 3 "carol" "h3" false [] [] [].

Definition demo : State :=
  mkState [alice; bob; carol]
          [mkChat 20 [1; 2] [30]]
          [mkGroup 10 "team" [1; 2] [] 5]
          [mkMessage 30 1 "hi" 7 false (Some 20) None]
          40
          [(100, 20)].

(** The small database after alice has asked herself to be friends. *)
Definition selfRequest : State := snd (sendFriendRequest 1 "alice" demo).

(** The empty database, and the state after alice and bob have
    registered, alice has asked bob to be friends and opened a chat with
    him, session 7 has joined that chat and alice has posted "hi". *)
Definition empty : State := mkState [] [] [] [] 0 [].

Definition scenario : State :=
  run [Register "alice" "pw" "h1"; Register "bob" "pw" "h2";
       SendFriendRequest 0 "bob"; CreateChat 0 [0; 1]; JoinChat 7 2;
       PostMessage 0 "hi" (Some 2) None 9] empty.

(** * Properties *)

(** ** Lists of ObjectIds *)

Lemma includes_In (l : list ObjectId) (i : ObjectId) :
  includes l i = true <-> In i l.
Proof.
  unfold includes. rewrite existsb_exists. split.
  - intros [j [Hj Heq]]. apply Nat.eqb_eq in Heq. now subst.
  - intros H. exists i. split; [assumption | apply Nat.eqb_refl].
Qed.

Lemma includes_not_In (l : list ObjectId) (i : ObjectId) :
  includes l i = false <-> ~ In i l.
Proof.
  rewrite <- includes_In. destruct (includes l i); split; congruence.
Qed.

Lemma without_spec (i j : ObjectId) (l : list ObjectId) :
  In j (without i l) <-> In j l /\ j <> i.
Proof.
  unfold without. rewrite filter_In, negb_true_iff, Nat.eqb_neq. tauto.
Qed.

Lemma count_without (i : ObjectId) (l : list ObjectId) :
  count_occ Nat.eq_dec (without i l) i = 0.
Proof.
  apply count_occ_not_In. rewrite without_spec. tauto.
Qed.

(** ** Collections *)

Section CollectionFacts.
Variable A : Type.
Variable key : A -> ObjectId.

Lemma findById_key (i : ObjectId) (l : list A) (r : A) :
  findById key i l = Some r -> key r = i.
Proof.
  unfold findById. intros H. apply find_some in H.
  now apply Nat.eqb_eq.
Qed.

Lemma findById_In (i : ObjectId) (l : list A) (r : A) :
  findById key i l = Some r -> In r l.
Proof.
  unfold findById. intros H. now apply find_some in H.
Qed.

Lemma In_findById (l : list A) (r : A) :
  In r l -> exists r', findById key (key r) l = Some r'.
Proof.
  unfold findById. intros H.
  destruct (find (fun x => key x =? key r) l) as [r'|] eqn:E.
  - now exists r'.
  - apply (find_none _ _ E) in H. now rewrite Nat.eqb_refl in H.
Qed.

Lemma findById_app (i : ObjectId) (l l' : list A) :
  findById key i (l ++ l') =
  match findById key i l with
  | Some r => Some r
  | None => findById key i l'
  end.
Proof.
  unfold findById. induction l as [|r t IH]; simpl; [reflexivity|].
  now destruct (key r =? i).
Qed.

Section Update.
Variable f : A -> A.
Hypothesis f_key : forall r, key (f r) = key r.

Lemma findById_updateById_same (i : ObjectId) (l : list A) :
  findById key i (updateById key i f l) = option_map f (findById key i l).
Proof.
  unfold findById. induction l as [|r t IH]; simpl; [reflexivity|].
  destruct (key r =? i) eqn:E; simpl.
  - now rewrite f_key, E.
  - now rewrite E.
Qed.

Lemma findById_updateById_other (i j : ObjectId) (l : list A) :
  i <> j ->
  findById key j (updateById key i f l) = findById key j l.
Proof.
  intros Hij. unfold findById.
  induction l as [|r t IH]; simpl; [reflexivity|].
  destruct (key r =? i) eqn:E; simpl.
  - rewrite f_key. apply Nat.eqb_eq in E.
    destruct (key r =? j) eqn:E'; [|reflexivity].
    apply Nat.eqb_eq in E'. congruence.
  - now rewrite IH.
Qed.
End Update.
End CollectionFacts.

(** A change of a user document that keeps [_id] and [username] does not
    move the user [findOne({ username })] finds. *)
Lemma findByUsername_updateById (f : User -> User) (i : ObjectId)
    (name : string) (l : list User) :
  (forall u, u_id (f u) = u_id u) ->
  (forall u, username (f u) = username u) ->
  option_map u_id (findByUsername name (updateById u_id i f l)) =
  option_map u_id (findByUsername name l)
  /\ (findByUsername name l = None ->
      findByUsername name (updateById u_id i f l) = None).
Proof.
  intros Hid Hname. unfold findByUsername.
  induction l as [|u t [IH1 IH2]]; simpl; [now split|].
  destruct (u_id u =? i); simpl.
  - rewrite Hname. destruct (String.eqb (username u) name); simpl.
    + now rewrite Hid.
    + now split.
  - destruct (String.eqb (username u) name); simpl.
    + split; [reflexivity | discriminate].
    + now split.
Qed.

Lemma findByUsername_kept (f : User -> User) (i : ObjectId)
    (name : string) (l : list User) (B : User) :
  (forall u, u_id (f u) = u_id u) ->
  (forall u, username (f u) = username u) ->
  findByUsername name l = Some B ->
  exists B1, findByUsername name (updateById u_id i f l) = Some B1
             /\ u_id B1 = u_id B.
Proof.
  intros Hid Hname HB.
  destruct (findByUsername_updateById f i name l Hid Hname) as [H _].
  rewrite HB in H. simpl in H.
  destruct (findByUsername name (updateById u_id i f l)) as [B1|];
    [|discriminate].
  exists B1. split; [reflexivity|]. simpl in H. congruence.
Qed.

(** ** Accepting and rejecting a friend request *)

Lemma findByUsername_In (name : string) (l : list User) (u : User) :
  findByUsername name l = Some u -> In u l /\ username u = name.
Proof.
  unfold findByUsername. intros H. apply find_some in H.
  now rewrite String.eqb_eq in H.
Qed.

Lemma changed_false (value loaded : list ObjectId) :
  changed value loaded = false -> value = loaded.
Proof.
  unfold changed. now destruct (list_eq_dec Nat.eq_dec value loaded).
Qed.

Lemma changed_without (i : ObjectId) (l : list ObjectId) :
  changed (without i l) l = includes l i.
Proof.
  unfold changed. destruct (list_eq_dec Nat.eq_dec (without i l) l) as [E|E].
  - symmetry. apply includes_not_In. intros Hin. rewrite <- E in Hin.
    apply without_spec in Hin. tauto.
  - symmetry. apply includes_In.
    destruct (in_dec Nat.eq_dec i l) as [H|H]; [assumption|].
    exfalso. apply E. clear E. unfold without.
    induction l as [|j t IH]; simpl; [reflexivity|].
    destruct (Nat.eqb_spec j i) as [->|_]; simpl.
    + exfalso. apply H. now left.
    + f_equal. apply IH. intros Hin. apply H. now right.
Qed.

(** The second save of a handler throws exactly when the two documents
    are copies of one record and both saves carry a change. *)
Lemma versionError_iff (written assigned : bool) (first second : User) :
  versionError written assigned first second = true
  <-> written = true /\ assigned = true /\ u_id first = u_id second.
Proof.
  unfold versionError. rewrite !andb_true_iff, Nat.eqb_eq. tauto.
Qed.

Lemma versionError_false (written assigned : bool) (first second : User) :
  u_id first <> u_id second \/ assigned = false ->
  versionError written assigned first second = false.
Proof.
  unfold versionError. intros [H|H].
  - apply Nat.eqb_neq in H. rewrite H. now rewrite andb_false_r.
  - rewrite H. now rewrite andb_false_r.
Qed.

(** What one accepted request leaves in the store, for an actor [A] and
    a target [B] that both exist, when the second save goes through. *)
Lemma accept_effect (actor : ObjectId) (name : string) (s : State)
    (A B : User) :
  falsy name = false ->
  findById u_id actor (users s) = Some A ->
  findByUsername name (users s) = Some B ->
  versionError true
    (changed (without (u_id B) (friendRequests A)) (friendRequests A)) B A
  = false ->
  let s1 := snd (acceptFriendRequest actor name s) in
  fst (acceptFriendRequest actor name s)
    = mkResponse OK (BIdentity (username B) (u_id B))
  /\ requestsOf actor s1 = without (u_id B) (friendRequests A)
  /\ (actor <> u_id B ->
      friendsOf actor s1 = friendsOf actor s ++ [u_id B]
      /\ friendsOf (u_id B) s1 = friendsOf (u_id B) s ++ [actor])
  /\ (actor = u_id B ->
      friendsOf actor s1 = friendsOf actor s ++ [actor; actor])
  /\ (exists A1, findById u_id actor (users s1) = Some A1)
  /\ (exists B1, findByUsername name (users s1) = Some B1
                 /\ u_id B1 = u_id B).
Proof.
  intros Hn HA HB Hok.
  pose proof (findById_key _ _ _ HA) as HkA.
  destruct (findByUsername_In _ _ HB) as [HinB _].
  destruct (In_findById u_id _ _ HinB) as [B0 HB0].
  unfold acceptFriendRequest. rewrite Hn, HB, HA. cbv zeta. rewrite Hok.
  simpl. rewrite HkA.
  set (requests := without (u_id B) (friendRequests A)) in *.
  set (assigned := changed requests (friendRequests A)) in *.
  set (g := fun r => push_friend (u_id B)
                       (set_friendRequests
                          (if assigned then requests else friendRequests r)
                          r)).
  assert (Hg : forall r, u_id (g r) = u_id r) by reflexivity.
  assert (Hp : forall r, u_id (push_friend actor r) = u_id r) by reflexivity.
  assert (Hreq : (if assigned then requests else friendRequests A)
                 = requests).
  { destruct assigned eqn:E; [reflexivity|].
    symmetry. now apply changed_false. }
  unfold requestsOf, friendsOf. simpl.
  rewrite (findById_updateById_same u_id g Hg).
  split; [reflexivity|].
  destruct (Nat.eq_dec actor (u_id B)) as [E|E].
  - rewrite E in *.
    rewrite (findById_updateById_same u_id _ Hp), HA. simpl.
    split; [exact Hreq|]. split; [tauto|].
    split; [intros _; now rewrite <- app_assoc|].
    split; [eauto|].
    destruct (findByUsername_kept (push_friend (u_id B)) (u_id B) name
                (users s) Hp (fun _ => eq_refl) HB) as [B1 [H1 E1]].
    destruct (findByUsername_kept g (u_id B) name _ Hg (fun _ => eq_refl) H1)
      as [B2 [H2 E2]].
    exists B2. split; [assumption | congruence].
  - rewrite (findById_updateById_other u_id _ Hp) by congruence.
    rewrite HA. simpl.
    split; [exact Hreq|].
    split.
    { intros _. split; [reflexivity|].
      rewrite (findById_updateById_other u_id g Hg) by assumption.
      rewrite (findById_updateById_same u_id _ Hp), HB0. reflexivity. }
    split; [tauto|].
    split; [eauto|].
    destruct (findByUsername_kept (push_friend actor) (u_id B) name
                (users s) Hp (fun _ => eq_refl) HB) as [B1 [H1 E1]].
    destruct (findByUsername_kept g actor name _ Hg (fun _ => eq_refl) H1)
      as [B2 [H2 E2]].
    exists B2. split; [assumption | congruence].
Qed.

Lemma accept_success (actor : ObjectId) (name : string) (s s' : State)
    (r : Response) :
  acceptFriendRequest actor name s = (r, s') ->
  status r = OK ->
  falsy name = false
  /\ exists A B,
       findById u_id actor (users s) = Some A
       /\ findByUsername name (users s) = Some B
       /\ versionError true
            (changed (without (u_id B) (friendRequests A)) (friendRequests A))
            B A = false.
Proof.
  unfold acceptFriendRequest.
  destruct (falsy name); [intros [= <- _]; discriminate|].
  destruct (findByUsername name (users s)) as [B|];
    [|intros [= <- _]; discriminate].
  destruct (findById u_id actor (users s)) as [A|];
    [|intros [= <- _]; discriminate].
  cbv zeta.
  destruct (versionError true _ B A) eqn:Hv;
    [intros [= <- _]; discriminate|].
  intros _ _. split; [reflexivity|]. now exists A, B.
Qed.

Lemma reject_success (actor : ObjectId) (name : string) (s s' : State)
    (r : Response) :
  rejectFriendRequest actor name s = (r, s') ->
  status r = OK ->
  falsy name = false
  /\ exists A B, findById u_id actor (users s) = Some A
                 /\ findByUsername name (users s) = Some B.
Proof.
  unfold rejectFriendRequest.
  destruct (falsy name); [intros [= <- _]; discriminate|].
  destruct (findByUsername name (users s)) as [B|];
    [|intros [= <- _]; discriminate].
  destruct (findById u_id actor (users s)) as [A|];
    [|intros [= <- _]; discriminate].
  intros _ _. split; [reflexivity|]. now exists A, B.
Qed.

(** What one rejected request leaves in the store. *)
Lemma reject_effect (actor : ObjectId) (name : string) (s : State)
    (A B : User) :
  falsy name = false ->
  findById u_id actor (users s) = Some A ->
  findByUsername name (users s) = Some B ->
  let s1 := snd (rejectFriendRequest actor name s) in
  fst (rejectFriendRequest actor name s)
    = mkResponse OK (BIdentity (username B) (u_id B))
  /\ findById u_id actor (users s1)
     = Some (set_friendRequests (without (u_id B) (friendRequests A)) A)
  /\ forall i, friendsOf i s1 = friendsOf i s.
Proof.
  intros Hn HA HB.
  pose proof (findById_key _ _ _ HA) as HkA.
  unfold rejectFriendRequest. rewrite Hn, HB, HA. simpl. rewrite HkA.
  set (g := set_friendRequests (without (u_id B) (friendRequests A))).
  assert (Hg : forall r, u_id (g r) = u_id r) by reflexivity.
  split; [reflexivity|]. split.
  - now rewrite (findById_updateById_same u_id g Hg), HA.
  - intros i. unfold friendsOf. simpl.
    destruct (Nat.eq_dec actor i) as [<-|E].
    + now rewrite (findById_updateById_same u_id g Hg), HA.
    + now rewrite (findById_updateById_other u_id g Hg) by assumption.
Qed.

(** C2.  Friendship symmetry: when [acceptFriendRequest] of actor A for
    the username of B answers 200, the record stored for A has B among
    its friends and the record stored for B has A among its friends. *)
Theorem acceptFriendRequest_symmetric (actor : ObjectId) (name : string)
    (s s' : State) (r : Response) :
  acceptFriendRequest actor name s = (r, s') ->
  status r = OK ->
  exists A B A' B',
    findById u_id actor (users s) = Some A
    /\ findByUsername name (users s) = Some B
    /\ findById u_id (u_id A) (users s') = Some A'
    /\ findById u_id (u_id B) (users s') = Some B'
    /\ In (u_id B) (friends A')
    /\ In (u_id A) (friends B').
Proof.
  intros Hrun Hok.
  destruct (accept_success _ _ _ Hrun Hok) as [Hn [A [B [HA [HB Hv]]]]].
  pose proof (findById_key _ _ _ HA) as HkA.
  destruct (accept_effect _ _ _ Hn HA HB Hv)
    as [_ [_ [Hne [Heq [[A1 HA1] [B1 [HB1 HkB]]]]]]].
  rewrite Hrun in *. simpl in *.
  destruct (findByUsername_In _ _ HB1) as [HinB1 _].
  destruct (In_findById u_id _ _ HinB1) as [B' HB']. rewrite HkB in HB'.
  exists A, B, A1, B'. rewrite HkA.
  repeat (split; [assumption|]).
  unfold friendsOf in Hne, Heq. rewrite HA1 in Hne, Heq. rewrite HB' in Hne.
  destruct (Nat.eq_dec actor (u_id B)) as [E|E].
  - specialize (Heq E). rewrite E in HA1. rewrite HA1 in HB'.
    injection HB' as <-. rewrite Heq, <- E.
    split; apply in_or_app; right; simpl; auto.
  - destruct (Hne E) as [H1 H2]. rewrite H1, H2.
    split; apply in_or_app; right; simpl; auto.
Qed.

Lemma acceptFriendRequest_symmetric_witness :
  exists A B A' B',
    findById u_id 1 (users demo) = Some A
    /\ findByUsername "bob" (users demo) = Some B
    /\ findById u_id (u_id A)
         (users (snd (acceptFriendRequest 1 "bob" demo))) = Some A'
    /\ findById u_id (u_id B)
         (users (snd (acceptFriendRequest 1 "bob" demo))) = Some B'
    /\ In (u_id B) (friends A')
    /\ In (u_id A) (friends B').
Proof.
  apply (@acceptFriendRequest_symmetric 1 "bob" demo
           (snd (acceptFriendRequest 1 "bob" demo))
           (fst (acceptFriendRequest 1 "bob" demo)));
    reflexivity.
Defined.

(** C7.  Request removal: when [acceptFriendRequest] or
    [rejectFriendRequest] of actor A for the username of B answers 200,
    B occurs zero times in the requests stored for A, however often it
    occurred before. *)
Theorem friendRequest_removed (actor : ObjectId) (name : string)
    (s s' : State) (r : Response) :
  acceptFriendRequest actor name s = (r, s')
  \/ rejectFriendRequest actor name s = (r, s') ->
  status r = OK ->
  exists A B A',
    findById u_id actor (users s) = Some A
    /\ findByUsername name (users s) = Some B
    /\ findById u_id actor (users s') = Some A'
    /\ count_occ Nat.eq_dec (friendRequests A') (u_id B) = 0.
Proof.
  intros [Hrun|Hrun] Hok.
  - destruct (accept_success _ _ _ Hrun Hok) as [Hn [A [B [HA [HB Hv]]]]].
    destruct (accept_effect _ _ _ Hn HA HB Hv)
      as [_ [Hreq [_ [_ [[A1 HA1] _]]]]].
    rewrite Hrun in *. simpl in *.
    exists A, B, A1. repeat (split; [assumption|]).
    unfold requestsOf in Hreq. rewrite HA1 in Hreq. rewrite Hreq.
    apply count_without.
  - destruct (reject_success _ _ _ Hrun Hok) as [Hn [A [B [HA HB]]]].
    destruct (reject_effect _ _ _ Hn HA HB) as [_ [HA1 _]].
    rewrite Hrun in *. simpl in *.
    exists A, B, (set_friendRequests (without (u_id B) (friendRequests A)) A).
    repeat (split; [assumption|]). simpl. apply count_without.
Qed.

Lemma friendRequest_removed_witness :
  (exists A B A',
     findById u_id 1 (users demo) = Some A
     /\ findByUsername "bob" (users demo) = Some B
     /\ findById u_id 1
          (users (snd (acceptFriendRequest 1 "bob" demo))) = Some A'
     /\ count_occ Nat.eq_dec (friendRequests A') (u_id B) = 0)
  /\ (exists A B A',
        findById u_id 1 (users demo) = Some A
        /\ findByUsername "bob" (users demo) = Some B
        /\ findById u_id 1
             (users (snd (rejectFriendRequest 1 "bob" demo))) = Some A'
        /\ count_occ Nat.eq_dec (friendRequests A') (u_id B) = 0).
Proof.
  split.
  - apply (@friendRequest_removed 1 "bob" demo
             (snd (acceptFriendRequest 1 "bob" demo))
             (fst (acceptFriendRequest 1 "bob" demo)));
      [left|]; reflexivity.
  - apply (@friendRequest_removed 1 "bob" demo
             (snd (rejectFriendRequest 1 "bob" demo))
             (fst (rejectFriendRequest 1 "bob" demo)));
      [right|]; reflexivity.
Defined.





(** ** Group membership *)

(** C5.  Group authorization: for a group that exists and an actor that is
    not one of its participants, [addGroupMember] and [removeGroupMember]
    both answer 403 and leave the state, and so the participants of the
    group, as they were. *)
Theorem group_membership_forbidden (actor gid uid : ObjectId) (s : State)
    (g : Group) :
  findById g_id gid (groupsC s) = Some g ->
  ~ In actor (g_participants g) ->
  (status (fst (addGroupMember actor gid uid s)) = Forbidden
   /\ snd (addGroupMember actor gid uid s) = s
   /\ groupParticipants gid (snd (addGroupMember actor gid uid s))
      = Some (g_participants g))
  /\ (status (fst (removeGroupMember actor gid uid s)) = Forbidden
      /\ snd (removeGroupMember actor gid uid s) = s
      /\ groupParticipants gid (snd (removeGroupMember actor gid uid s))
         = Some (g_participants g)).
Proof.
  intros Hg Hout. apply includes_not_In in Hout.
  unfold addGroupMember, removeGroupMember, groupParticipants.
  rewrite Hg, Hout. simpl. rewrite Hg. simpl. repeat split.
Qed.

Lemma group_membership_forbidden_witness :
  status (fst (addGroupMember 3 10 3 demo)) = Forbidden
  /\ status (fst (removeGroupMember 3 10 2 demo)) = Forbidden.
Proof.
  assert (Hg : findById g_id 10 (groupsC demo)
               = Some (mkGroup 10 "team" [1; 2] [] 5)) by reflexivity.
  assert (Hout : ~ In 3 (g_participants (mkGroup 10 "team" [1; 2] [] 5))).
  { simpl. intros [H|[H|[]]]; discriminate. }
  split.
  - exact (proj1 (proj1 (@group_membership_forbidden 3 10 3 demo _ Hg Hout))).
  - exact (proj1 (proj2 (@group_membership_forbidden 3 10 2 demo _ Hg Hout))).
Defined.

(** Counterexample to C6 as stated: alice is a participant of group 10
    and her request to remove herself is answered with 200, after which
    the group holds bob alone. *)
Lemma removeGroupMember_self_counterexample :
  In 1 [1; 2]
  /\ groupParticipants 10 demo = Some [1; 2]
  /\ status (fst (removeGroupMember 1 10 1 demo)) = OK
  /\ groupParticipants 10 (snd (removeGroupMember 1 10 1 demo)) = Some [2].
Proof.
  repeat split. simpl. auto.
Qed.

(** C6, amended.  For a group that exists and a user who is one of its
    participants, the user's request to remove themselves answers 200,
    and the user is no longer among the participants stored for the
    group. *)
Theorem removeGroupMember_self (u gid : ObjectId) (s : State) (g : Group) :
  findById g_id gid (groupsC s) = Some g ->
  In u (g_participants g) ->
  status (fst (removeGroupMember u gid u s)) = OK
  /\ groupParticipants gid (snd (removeGroupMember u gid u s))
     = Some (without u (g_participants g))
  /\ ~ In u (without u (g_participants g)).
Proof.
  intros Hg Hin. pose proof (findById_key _ _ _ Hg) as Hk.
  apply includes_In in Hin.
  unfold removeGroupMember, groupParticipants. rewrite Hg, Hin. simpl.
  split; [reflexivity|]. split.
  - rewrite Hk.
    rewrite (findById_updateById_same g_id (pull_participant u)
               (fun _ => eq_refl)), Hg.
    reflexivity.
  - rewrite without_spec. tauto.
Qed.

Lemma removeGroupMember_self_witness :
  status (fst (removeGroupMember 2 10 2 demo)) = OK
  /\ groupParticipants 10 (snd (removeGroupMember 2 10 2 demo)) = Some [1].
Proof.
  assert (Hg : findById g_id 10 (groupsC demo)
               = Some (mkGroup 10 "team" [1; 2] [] 5)) by reflexivity.
  assert (Hin : In 2 (g_participants (mkGroup 10 "team" [1; 2] [] 5))).
  { simpl. auto. }
  destruct (@removeGroupMember_self 2 10 demo _ Hg Hin) as [H1 [H2 _]].
  split; [exact H1 | exact H2].
Defined.

(** ** Chats *)

(** Counterexample to C4 as stated: alice asks for a chat whose only
    participant is herself, a list of fewer than 2 distinct participants,
    and the answer is 201 with the chat stored. *)
Lemma createChat_single_counterexample :
  List.length (nodup Nat.eq_dec [1]) < 2
  /\ status (fst (createChat 1 [1] demo)) = Created
  /\ status (fst (createChat 1 [1] demo)) <> BadRequest
  /\ chats (snd (createChat 1 [1] demo)) = chats demo ++ [mkChat 40 [1] []].
Proof.
  repeat split; simpl; try lia. discriminate.
Qed.

(** C4, amended.  [createChat] answers 400 and stores nothing when the
    requester is not in the participant list; in every other case, a list
    of fewer than 2 distinct participants included, it answers 201 with a
    new chat of exactly those participants and no messages, stored after
    the chats there were. *)
Theorem createChat_spec (actor : ObjectId) (ps : list ObjectId) (s : State) :
  (~ In actor ps ->
   status (fst (createChat actor ps s)) = BadRequest
   /\ snd (createChat actor ps s) = s)
  /\ (In actor ps ->
      fst (createChat actor ps s)
        = mkResponse Created (BChat (mkChat (next_id s) ps []))
      /\ chats (snd (createChat actor ps s))
         = chats s ++ [mkChat (next_id s) ps []]).
Proof.
  unfold createChat. split; intros H.
  - apply includes_not_In in H. rewrite H. simpl. now split.
  - apply includes_In in H. rewrite H. simpl. now split.
Qed.

Lemma createChat_spec_witness :
  status (fst (createChat 3 [1; 2] demo)) = BadRequest
  /\ chats (snd (createChat 1 [1; 3] demo))
     = chats demo ++ [mkChat 40 [1; 3] []].
Proof.
  split.
  - apply (proj1 (createChat_spec 3 [1; 2] demo)).
    simpl. intros [H|[H|[]]]; discriminate.
  - apply (proj2 (createChat_spec 1 [1; 3] demo)).
    simpl. auto.
Defined.

(** C3.  [listMessages] for a chat that is absent answers 403, the answer
    it gives to an actor outside the chat, and not 404. *)
Theorem listMessages_absent_chat (actor cid : ObjectId) (s : State) :
  findById c_id cid (chats s) = None ->
  listMessages actor cid s = (notAuthorized, s)
  /\ status (fst (listMessages actor cid s)) = Forbidden
  /\ status (fst (listMessages actor cid s)) <> NotFound.
Proof.
  intros H. unfold listMessages. rewrite H. simpl.
  repeat split. discriminate.
Qed.

Lemma listMessages_absent_chat_witness :
  findById c_id 21 (chats demo) = None
  /\ status (fst (listMessages 1 21 demo)) = Forbidden.
Proof.
  split; [reflexivity|].
  apply (listMessages_absent_chat 1 21 demo). reflexivity.
Defined.

(** The rest of [listMessages]: an actor outside the chat is answered
    with 403, and a participant with the messages of the chat in the
    order of its [messages] array, each with its populated sender. *)
Lemma listMessages_present (actor cid : ObjectId) (s : State) (c : Chat) :
  findById c_id cid (chats s) = Some c ->
  (~ In actor (c_participants c) ->
   listMessages actor cid s = (notAuthorized, s))
  /\ (In actor (c_participants c) ->
      listMessages actor cid s
      = (mkResponse OK
           (BMessages
              (map (fun m => mkPopulated m (findById u_id (sender m) (users s)))
                 (populateMany m_id (c_messages c) (messages s)))), s)).
Proof.
  intros Hc. unfold listMessages. rewrite Hc. split; intros H.
  - apply includes_not_In in H. now rewrite H.
  - apply includes_In in H. now rewrite H.
Qed.

Example listMessages_demo :
  fst (listMessages 1 20 demo)
  = mkResponse OK
      (BMessages [mkPopulated (mkMessage 30 1 "hi" 7 false (Some 20) None)
                    (Some alice)]).
Proof. reflexivity. Qed.

(** ** Messages *)

(** C9.  [getMessage] for an id that names no stored message answers 200
    with [null], not 404. *)
Theorem getMessage_absent (mid : ObjectId) (s : State) :
  findById m_id mid (messages s) = None ->
  getMessage mid s = (mkResponse OK (BMessage None), s)
  /\ status (fst (getMessage mid s)) <> NotFound.
Proof.
  intros H. unfold getMessage. rewrite H. simpl. split; [reflexivity|].
  discriminate.
Qed.

Lemma getMessage_absent_witness :
  findById m_id 31 (messages demo) = None
  /\ getMessage 31 demo = (mkResponse OK (BMessage None), demo).
Proof.
  split; [reflexivity|].
  apply (getMessage_absent 31 demo). reflexivity.
Defined.

(** A stored message is returned with its populated sender. *)
Lemma getMessage_present (mid : ObjectId) (s : State) (m : Message) :
  findById m_id mid (messages s) = Some m ->
  getMessage mid s
  = (mkResponse OK
       (BMessage (Some (mkPopulated m (findById u_id (sender m) (users s))))),
     s).
Proof.
  intros H. unfold getMessage. now rewrite H.
Qed.

(** C1.  [postMessage] never answers 400, and with a content it answers
    201 and stores the new message whatever [chat] and [group] are, both
    given and neither given included. *)
Theorem postMessage_any_destination (actor : ObjectId) (text : string)
    (chat group : option ObjectId) (now : nat) (s : State) :
  status (fst (postMessage actor text chat group now s)) <> BadRequest
  /\ (falsy text = false ->
      status (fst (postMessage actor text chat group now s)) = Created
      /\ messages (snd (postMessage actor text chat group now s))
         = messages s
           ++ [mkMessage (next_id s) actor text now false chat group]).
Proof.
  unfold postMessage. destruct (falsy text).
  - split; [discriminate | intros [=]].
  - split; [discriminate | intros _].
    destruct chat as [c|], group as [g|]; simpl; now split.
Qed.

Lemma postMessage_any_destination_witness :
  (status (fst (postMessage 1 "yo" (Some 20) (Some 10) 8 demo)) = Created
   /\ messages (snd (postMessage 1 "yo" (Some 20) (Some 10) 8 demo))
      = messages demo ++ [mkMessage 40 1 "yo" 8 false (Some 20) (Some 10)])
  /\ (status (fst (postMessage 1 "yo" None None 8 demo)) = Created
      /\ messages (snd (postMessage 1 "yo" None None 8 demo))
         = messages demo ++ [mkMessage 40 1 "yo" 8 false None None]).
Proof.
  split.
  - apply (proj2 (postMessage_any_destination 1 "yo" (Some 20) (Some 10)
                     8 demo)).
    reflexivity.
  - apply (proj2 (postMessage_any_destination 1 "yo" None None 8 demo)).
    reflexivity.
Defined.

(** ** Chat participants never change *)

(** What a request can do to the chat collection: nothing, store one more
    chat after the others, or append a message id to one chat. *)
Lemma handle_chats (q : Request) (s : State) :
  chats (snd (handle q s)) = chats s
  \/ (exists c, chats (snd (handle q s)) = chats s ++ [c])
  \/ (exists i m, chats (snd (handle q s))
                  = updateById c_id i (push_chat_message m) (chats s)).
Proof.
  destruct q; simpl;
    unfold register, login, me, listRelationships, sendFriendRequest, removeFriend,
      acceptFriendRequest, rejectFriendRequest, createGroup, addGroupMember,
      removeGroupMember, createChat, listMessages, postMessage, getMessage,
      setReadStatus, joinChat, leaveChat;
    repeat match goal with
           | |- context [match ?x with _ => _ end] => destruct x
           end;
    simpl; eauto.
Qed.

Lemma chatParticipants_step (q : Request) (s : State) (cid : ObjectId)
    (ps : list ObjectId) :
  chatParticipants cid s = Some ps ->
  chatParticipants cid (snd (handle q s)) = Some ps.
Proof.
  unfold chatParticipants. intros H.
  destruct (findById c_id cid (chats s)) as [c|] eqn:Hc; [|discriminate].
  destruct (handle_chats q s) as [E|[[c' E]|[i [m E]]]]; rewrite E.
  - now rewrite Hc.
  - now rewrite findById_app, Hc.
  - destruct (Nat.eq_dec i cid) as [->|Hne].
    + rewrite (findById_updateById_same c_id (push_chat_message m)
                 (fun _ => eq_refl)), Hc.
      exact H.
    + rewrite (findById_updateById_other c_id (push_chat_message m)
                 (fun _ => eq_refl)) by assumption.
      now rewrite Hc.
Qed.

Lemma chatParticipants_run (qs : list Request) :
  forall (s : State) (cid : ObjectId) (ps : list ObjectId),
    chatParticipants cid s = Some ps ->
    chatParticipants cid (run qs s) = Some ps.
Proof.
  induction qs as [|q t IH]; intros s cid ps H; simpl; [assumption|].
  apply IH. now apply chatParticipants_step.
Qed.

(** C8.  Chat immutability: through every sequence of requests, a chat
    that is stored keeps the participants it has, and a chat that
    [createChat] has just stored under a fresh id keeps exactly the
    participants it was created with. *)
Theorem chat_participants_immutable (qs : list Request) (s : State)
    (cid : ObjectId) (ps : list ObjectId) :
  (chatParticipants cid s = Some ps ->
   chatParticipants cid (run qs s) = Some ps)
  /\ (forall actor,
        In actor ps ->
        chatParticipants (next_id s) s = None ->
        chatParticipants (next_id s) (run qs (snd (createChat actor ps s)))
        = Some ps).
Proof.
  split; [apply chatParticipants_run|].
  intros actor Hin Hfresh. apply chatParticipants_run.
  apply includes_In in Hin.
  unfold chatParticipants, createChat in *. rewrite Hin. simpl.
  rewrite findById_app.
  destruct (findById c_id (next_id s) (chats s)); [discriminate|].
  unfold findById. simpl. now rewrite Nat.eqb_refl.
Qed.

Lemma chat_participants_immutable_witness :
  chatParticipants 20
    (run [PostMessage 1 "yo" (Some 20) None 8; RemoveGroupMember 1 10 2;
          AcceptFriendRequest 1 "bob"; CreateChat 2 [2; 3]] demo)
  = Some [1; 2]
  /\ chatParticipants 40
       (run [PostMessage 3 "hey" (Some 40) None 9; SetReadStatus 41 true]
            (snd (createChat 3 [3; 1] demo)))
     = Some [3; 1].
Proof.
  split.
  - apply (proj1 (chat_participants_immutable
                    [PostMessage 1 "yo" (Some 20) None 8;
                     RemoveGroupMember 1 10 2;
                     AcceptFriendRequest 1 "bob"; CreateChat 2 [2; 3]]
                    demo 20 [1; 2])).
    reflexivity.
  - apply (proj2 (chat_participants_immutable
                    [PostMessage 3 "hey" (Some 40) None 9;
                     SetReadStatus 41 true]
                    demo 20 [3; 1]) 3).
    + simpl. auto.
    + reflexivity.
Defined.

(** ** Scenarios *)

Example scenario_request_pending : requestsOf 1 scenario = [0].
Proof. reflexivity. Qed.

Example scenario_accept :
  let r := acceptFriendRequest 1 "alice" scenario in
  fst r = mkResponse OK (BIdentity "alice" 0)
  /\ friendsOf 0 (snd r) = [1]
  /\ friendsOf 1 (snd r) = [0]
  /\ requestsOf 1 (snd r) = [].
Proof. repeat split. Qed.

Example scenario_messages :
  fst (listMessages 1 2 scenario)
  = mkResponse OK
      (BMessages
         [mkPopulated (mkMessage 3 0 "hi" 9 false (Some 2) None)
            (Some (mkUser 0 "alice" "h1" false [] [] []))]).
Proof. reflexivity. Qed.

Example scenario_subscribers :
  subscribers (channel (Some 2) None) scenario = [7]
  /\ subscribers (channel None (Some 5)) scenario = []
  /\ subscribers (channel None None) scenario = [].
Proof. repeat split. Qed.

(** * Further properties of the handlers *)

(** ** More on collections *)

Lemma without_notin (i : ObjectId) (l : list ObjectId) :
  ~ In i l -> without i l = l.
Proof.
  unfold without. induction l as [|j t IH]; simpl; intros H; [reflexivity|].
  destruct (Nat.eqb_spec j i) as [->|_]; simpl.
  - exfalso. apply H. now left.
  - f_equal. apply IH. intros Hin. apply H. now right.
Qed.

Lemma without_app (i : ObjectId) (l l' : list ObjectId) :
  without i (l ++ l') = without i l ++ without i l'.
Proof. unfold without. apply filter_app. Qed.

Lemma without_self (i : ObjectId) : without i [i] = [].
Proof. unfold without. simpl. now rewrite Nat.eqb_refl. Qed.

Lemma without_other (i j : ObjectId) : j <> i -> without i [j] = [j].
Proof.
  intros H. unfold without. simpl.
  destruct (Nat.eqb_spec j i); [contradiction | reflexivity].
Qed.

Section MoreCollectionFacts.
Variable A : Type.
Variable key : A -> ObjectId.

Lemma updateById_absent (i : ObjectId) (f : A -> A) (l : list A) :
  findById key i l = None -> updateById key i f l = l.
Proof.
  unfold findById. induction l as [|r t IH]; simpl; [reflexivity|].
  destruct (key r =? i); [discriminate|].
  intros H. now rewrite IH.
Qed.

Lemma In_populateMany (ids : list ObjectId) (l : list A) (r : A) :
  In r (populateMany key ids l)
  <-> exists i, In i ids /\ findById key i l = Some r.
Proof.
  unfold populateMany. rewrite in_flat_map. split.
  - intros [i [Hi Hr]]. exists i. split; [assumption|].
    destruct (findById key i l) as [r'|]; simpl in Hr; [|contradiction].
    destruct Hr as [->|[]]. reflexivity.
  - intros [i [Hi Hr]]. exists i. split; [assumption|].
    rewrite Hr. now left.
Qed.

Lemma populateMany_app (ids ids' : list ObjectId) (l : list A) :
  populateMany key (ids ++ ids') l
  = populateMany key ids l ++ populateMany key ids' l.
Proof. unfold populateMany. apply flat_map_app. Qed.

Section Change.
Variable f : A -> A.
Hypothesis f_key : forall r, key (f r) = key r.

Lemma findById_updateById (i j : ObjectId) (l : list A) :
  findById key j (updateById key i f l)
  = if i =? j then option_map f (findById key j l) else findById key j l.
Proof.
  destruct (Nat.eqb_spec i j) as [->|H].
  - now apply findById_updateById_same.
  - now apply findById_updateById_other.
Qed.

Lemma findById_updateMany (p : A -> bool) (j : ObjectId) (l : list A) :
  findById key j (updateMany p f l)
  = option_map (fun r => if p r then f r else r) (findById key j l).
Proof.
  unfold findById, updateMany.
  induction l as [|r t IH]; simpl; [reflexivity|].
  assert (E : key (if p r then f r else r) = key r)
    by (destruct (p r); [apply f_key | reflexivity]).
  rewrite E. now destruct (key r =? j).
Qed.

Lemma map_updateById (B : Type) (g : A -> B) (i : ObjectId) (l : list A) :
  (forall r, g (f r) = g r) ->
  map g (updateById key i f l) = map g l.
Proof.
  intros Hg. induction l as [|r t IH]; simpl; [reflexivity|].
  destruct (key r =? i); simpl; [now rewrite Hg | now rewrite IH].
Qed.

Lemma map_updateMany (B : Type) (g : A -> B) (p : A -> bool) (l : list A) :
  (forall r, g (f r) = g r) ->
  map g (updateMany p f l) = map g l.
Proof.
  intros Hg. unfold updateMany. rewrite map_map. apply map_ext.
  intros r. now destruct (p r).
Qed.
End Change.
End MoreCollectionFacts.

(** ** Sending a friend request and removing a friend *)

Ltac lookup_updated :=
  repeat (rewrite findById_updateById by reflexivity);
  repeat match goal with
         | |- context [?a =? ?b] => destruct (Nat.eqb_spec a b); subst
         end;
  repeat match goal with
         | H : ?x = Some _ |- context [?x] => rewrite H
         | H : ?x = None |- context [?x] => rewrite H
         end;
  simpl; try reflexivity; try congruence.

(** What one friend request leaves in the store, for an actor [A] and a
    target [B] that both exist and are not friends on the side of [A]. *)
Lemma send_effect (actor : ObjectId) (name : string) (s : State)
    (A B : User) :
  falsy name = false ->
  findById u_id actor (users s) = Some A ->
  findByUsername name (users s) = Some B ->
  ~ In (u_id B) (friends A) ->
  let s1 := snd (sendFriendRequest actor name s) in
  fst (sendFriendRequest actor name s)
    = mkResponse OK (BIdentity (username B) (u_id B))
  /\ requestsOf (u_id B) s1 = requestsOf (u_id B) s ++ [actor]
  /\ (forall j, j <> u_id B -> requestsOf j s1 = requestsOf j s)
  /\ (forall i, friendsOf i s1 = friendsOf i s)
  /\ (exists B1, findByUsername name (users s1) = Some B1
                 /\ u_id B1 = u_id B).
Proof.
  intros Hn HA HB Hnf.
  pose proof (findById_key _ _ _ HA) as HkA.
  destruct (findByUsername_In _ _ HB) as [HinB _].
  destruct (In_findById u_id _ _ HinB) as [B0 HB0].
  apply includes_not_In in Hnf.
  unfold sendFriendRequest. rewrite Hn, HB, HA, Hnf. simpl. rewrite HkA.
  split; [reflexivity|].
  unfold requestsOf, friendsOf. simpl.
  split; [lookup_updated|].
  split; [intros j Hj; lookup_updated|].
  split.
  - intros i. rewrite findById_updateById by reflexivity.
    destruct (u_id B =? i); [|reflexivity].
    now destruct (findById u_id i (users s)).
  - apply (findByUsername_kept (push_friendRequest actor) (u_id B) name
             (users s) (fun _ => eq_refl) (fun _ => eq_refl) HB).
Qed.

(** X1.  [sendFriendRequest] answers 400 to an empty username, 404 to a
    username nobody has and 409 when the target is among the actor's
    friends, each time without a write; otherwise it answers 200 and
    appends the actor to the requests stored for the target, leaving the
    requests of everybody else and all friends lists as they were. *)
Theorem sendFriendRequest_spec (actor : ObjectId) (name : string)
    (s : State) (A : User) :
  findById u_id actor (users s) = Some A ->
  (falsy name = true ->
   sendFriendRequest actor name s = (sendStatus BadRequest, s))
  /\ (falsy name = false -> findByUsername name (users s) = None ->
      sendFriendRequest actor name s = (sendStatus NotFound, s))
  /\ (forall B, falsy name = false ->
        findByUsername name (users s) = Some B ->
        In (u_id B) (friends A) ->
        sendFriendRequest actor name s = (sendStatus Conflict, s))
  /\ (forall B, falsy name = false ->
        findByUsername name (users s) = Some B ->
        ~ In (u_id B) (friends A) ->
        let s1 := snd (sendFriendRequest actor name s) in
        fst (sendFriendRequest actor name s)
          = mkResponse OK (BIdentity (username B) (u_id B))
        /\ requestsOf (u_id B) s1 = requestsOf (u_id B) s ++ [actor]
        /\ (forall j, j <> u_id B -> requestsOf j s1 = requestsOf j s)
        /\ (forall i, friendsOf i s1 = friendsOf i s)).
Proof.
  intros HA. split; [|split; [|split]].
  - intros Hn. unfold sendFriendRequest. now rewrite Hn.
  - intros Hn HB. unfold sendFriendRequest. now rewrite Hn, HB.
  - intros B Hn HB Hin. apply includes_In in Hin.
    unfold sendFriendRequest. now rewrite Hn, HB, HA, Hin.
  - intros B Hn HB Hnf.
    destruct (send_effect _ _ _ Hn HA HB Hnf) as [H1 [H2 [H3 [H4 _]]]].
    auto.
Qed.

Lemma sendFriendRequest_spec_witness :
  sendFriendRequest 3 "" demo = (sendStatus BadRequest, demo)
  /\ sendFriendRequest 3 "dave" demo = (sendStatus NotFound, demo)
  /\ requestsOf 1 (snd (sendFriendRequest 3 "alice" demo)) = [2; 3].
Proof.
  assert (HA : findById u_id 3 (users demo) = Some carol) by reflexivity.
  split; [|split].
  - apply (proj1 (@sendFriendRequest_spec 3 "" demo carol HA)). reflexivity.
  - apply (proj1 (proj2 (@sendFriendRequest_spec 3 "dave" demo carol HA)));
      reflexivity.
  - destruct (proj2 (proj2 (proj2
               (@sendFriendRequest_spec 3 "alice" demo carol HA)))
               alice eq_refl eq_refl) as [_ [H _]].
    + simpl. tauto.
    + exact H.
Defined.

(** X2.  Requests are not deduplicated: when the same actor sends the
    same request twice, the second call answers 200 again and the actor
    occurs two more times in the requests stored for the target. *)
Theorem sendFriendRequest_twice (actor : ObjectId) (name : string)
    (s : State) (A B : User) :
  falsy name = false ->
  findById u_id actor (users s) = Some A ->
  findByUsername name (users s) = Some B ->
  ~ In (u_id B) (friends A) ->
  let s1 := snd (sendFriendRequest actor name s) in
  let s2 := snd (sendFriendRequest actor name s1) in
  status (fst (sendFriendRequest actor name s1)) = OK
  /\ requestsOf (u_id B) s2 = requestsOf (u_id B) s ++ [actor; actor]
  /\ count_occ Nat.eq_dec (requestsOf (u_id B) s2) actor
     = 2 + count_occ Nat.eq_dec (requestsOf (u_id B) s) actor.
Proof.
  intros Hn HA HB Hnf s1 s2.
  destruct (send_effect _ _ _ Hn HA HB Hnf) as [_ [H2 [_ [H4 [B1 [HB1 Hk]]]]]].
  fold s1 in H2, H4, HB1.
  assert (HA1 : exists A1, findById u_id actor (users s1) = Some A1
                           /\ friends A1 = friends A).
  { specialize (H4 actor). unfold friendsOf in H4. rewrite HA in H4.
    destruct (findById u_id actor (users s1)) as [A1|] eqn:E.
    - now exists A1.
    - destruct (findByUsername_In _ _ HB) as [HinB _].
      exfalso. revert E. unfold s1, sendFriendRequest.
      apply includes_not_In in Hnf. rewrite Hn, HB, HA, Hnf. simpl.
      rewrite findById_updateById by reflexivity.
      rewrite HA. now destruct (u_id B =? actor). }
  destruct HA1 as [A1 [HA1 HfA1]].
  assert (Hnf1 : ~ In (u_id B1) (friends A1)) by (now rewrite Hk, HfA1).
  destruct (send_effect _ _ _ Hn HA1 HB1 Hnf1) as [Hr [H2' _]].
  fold s2 in H2'. rewrite Hk in H2'.
  split; [now rewrite Hr|].
  assert (E : requestsOf (u_id B) s2 = requestsOf (u_id B) s ++ [actor; actor])
    by (now rewrite H2', H2, <- app_assoc).
  split; [assumption|].
  rewrite E, count_occ_app, !count_occ_cons_eq by reflexivity.
  simpl. now rewrite Nat.add_comm.
Qed.

Lemma sendFriendRequest_twice_witness :
  requestsOf 1
    (snd (sendFriendRequest 3 "alice" (snd (sendFriendRequest 3 "alice" demo))))
  = [2; 3; 3].
Proof.
  destruct (@sendFriendRequest_twice 3 "alice" demo carol alice
              eq_refl eq_refl eq_refl) as [_ [H _]].
  - simpl. tauto.
  - exact H.
Defined.

(** What [removeFriend] leaves in the store, for an actor [A] and a
    target [B] that both exist, [B] being the user stored under its own
    id: the two filtered lists are stored, whether or not the second save
    goes through. *)
Lemma remove_effect (actor : ObjectId) (name : string) (s : State)
    (A B : User) :
  falsy name = false ->
  findById u_id actor (users s) = Some A ->
  findByUsername name (users s) = Some B ->
  findById u_id (u_id B) (users s) = Some B ->
  let s1 := snd (removeFriend actor name s) in
  let thrown := versionError
                  (changed (without actor (friends B)) (friends B))
                  (changed (without (u_id B) (friends A)) (friends A))
                  B A in
  fst (removeFriend actor name s)
    = (if thrown then sendStatus Internal
       else mkResponse OK (BIdentity (username B) (u_id B)))
  /\ friendsOf actor s1 = without (u_id B) (friends A)
  /\ friendsOf (u_id B) s1 = without actor (friends B)
  /\ (forall i, i <> actor -> i <> u_id B -> friendsOf i s1 = friendsOf i s)
  /\ (forall i, requestsOf i s1 = requestsOf i s).
Proof.
  intros Hn HA HB HBid.
  pose proof (findById_key _ _ _ HA) as HkA.
  unfold removeFriend, requestsOf, friendsOf.
  rewrite Hn, HB, HA. cbv zeta. rewrite HkA.
  destruct (Nat.eq_dec (u_id B) actor) as [E|E].
  - assert (A = B) by congruence. subst A. rewrite E.
    unfold versionError. rewrite E, Nat.eqb_refl, andb_true_r.
    set (l := without actor (friends B)).
    assert (Hl : changed l (friends B) = false -> friends B = l)
      by (intros H; symmetry; now apply changed_false).
    destruct (changed l (friends B)); simpl;
      rewrite !findById_updateById by reflexivity;
      rewrite ?Nat.eqb_refl, HA; simpl; rewrite <- ?Hl by reflexivity;
      (split; [reflexivity|]); (split; [reflexivity|]);
      (split; [reflexivity|]); split; intros i; intros;
      rewrite ?findById_updateById by reflexivity;
      destruct (Nat.eqb_spec actor i); subst; rewrite ?HA; simpl;
      congruence.
  - assert (Hv : forall w a, versionError w a B A = false).
    { intros w a. apply versionError_false. left. congruence. }
    rewrite Hv. simpl.
    set (mine := without (u_id B) (friends A)).
    set (theirs := without actor (friends B)).
    assert (Hmine : (if changed mine (friends A) then mine else friends A)
                    = mine).
    { destruct (changed mine (friends A)) eqn:H; [reflexivity|].
      symmetry. now apply changed_false. }
    assert (Htheirs : (if changed theirs (friends B) then theirs
                       else friends B) = theirs).
    { destruct (changed theirs (friends B)) eqn:H; [reflexivity|].
      symmetry. now apply changed_false. }
    rewrite !findById_updateById by reflexivity.
    rewrite !Nat.eqb_refl.
    destruct (Nat.eqb_spec (u_id B) actor) as [E'|_]; [congruence|].
    destruct (Nat.eqb_spec actor (u_id B)) as [E'|_]; [congruence|].
    rewrite HA, HBid. simpl. rewrite Hmine, Htheirs.
    split; [reflexivity|]. split; [reflexivity|]. split; [reflexivity|].
    split.
    + intros i H1 H2. rewrite !findById_updateById by reflexivity.
      destruct (Nat.eqb_spec actor i); [congruence|].
      destruct (Nat.eqb_spec (u_id B) i); [congruence | reflexivity].
    + intros i. rewrite !findById_updateById by reflexivity.
      destruct (Nat.eqb_spec actor i) as [<-|_].
      * destruct (Nat.eqb_spec (u_id B) actor); [congruence|].
        now rewrite HA.
      * destruct (Nat.eqb_spec (u_id B) i) as [<-|_]; [|reflexivity].
        now rewrite HBid.
Qed.

(** When the second save of [removeFriend] throws: exactly when the
    actor removes themselves while holding themselves as a friend. *)
Lemma remove_thrown (actor : ObjectId) (A B : User) :
  u_id A = actor ->
  (u_id B = actor -> A = B) ->
  versionError
    (changed (without actor (friends B)) (friends B))
    (changed (without (u_id B) (friends A)) (friends A)) B A = true
  <-> actor = u_id B /\ In actor (friends A).
Proof.
  intros HkA Hsame. rewrite versionError_iff, !changed_without. split.
  - intros [_ [Ha Hid]]. rewrite HkA in Hid. split; [now symmetry|].
    apply includes_In in Ha. now rewrite Hid in Ha.
  - intros [E Hin]. symmetry in E. pose proof (Hsame E) as HAB. subst A.
    apply includes_In in Hin. rewrite E, Hin. now repeat split.
Qed.

(** X3.  [removeFriend] for an existing actor and target (the target
    being the user stored under its own id) unlinks the two whether or
    not they were friends: afterwards the target is not among the friends
    stored for the actor, the actor is not among the friends stored for
    the target, the actor keeps every other friend, and nobody's pending
    requests change.  The answer is 200, except that an actor who removes
    themselves while holding themselves as a friend is answered with
    500, the second save having thrown after the first one wrote. *)
Theorem removeFriend_symmetric (actor : ObjectId) (name : string)
    (s : State) (A B : User) :
  falsy name = false ->
  findById u_id actor (users s) = Some A ->
  findByUsername name (users s) = Some B ->
  findById u_id (u_id B) (users s) = Some B ->
  let s1 := snd (removeFriend actor name s) in
  (actor <> u_id B \/ ~ In actor (friends A) ->
   status (fst (removeFriend actor name s)) = OK)
  /\ (actor = u_id B -> In actor (friends A) ->
      status (fst (removeFriend actor name s)) = Internal)
  /\ ~ In (u_id B) (friendsOf actor s1)
  /\ ~ In actor (friendsOf (u_id B) s1)
  /\ (forall j, In j (friendsOf actor s1)
                <-> In j (friendsOf actor s) /\ j <> u_id B)
  /\ (forall i, requestsOf i s1 = requestsOf i s).
Proof.
  intros Hn HA HB HBid s1.
  pose proof (findById_key _ _ _ HA) as HkA.
  destruct (@remove_effect actor name s A B Hn HA HB HBid)
    as [Hr [HfA [HfB [_ Hreq]]]].
  fold s1 in HfA, HfB, Hreq.
  assert (Hsame : u_id B = actor -> A = B) by (intros E; congruence).
  pose proof (@remove_thrown actor A B HkA Hsame) as Hth.
  split; [|split].
  - intros Hfree. rewrite Hr.
    destruct (versionError _ _ B A); [|reflexivity].
    exfalso. destruct (proj1 Hth eq_refl) as [E Hin].
    destruct Hfree; contradiction.
  - intros E Hin. rewrite Hr.
    now rewrite (proj2 Hth (conj E Hin)).
  - split; [rewrite HfA, without_spec; tauto|].
    split; [rewrite HfB, without_spec; tauto|].
    split; [|assumption].
    intros j. rewrite HfA, without_spec. unfold friendsOf. now rewrite HA.
Qed.

Lemma removeFriend_symmetric_witness :
  status (fst (removeFriend 1 "bob" demo)) = OK
  /\ ~ In 2 (friendsOf 1 (snd (removeFriend 1 "bob" demo))).
Proof.
  destruct (@removeFriend_symmetric 1 "bob" demo alice bob
              eq_refl eq_refl eq_refl eq_refl) as [H1 [_ [H2 _]]].
  split; [|exact H2].
  apply H1. left. discriminate.
Defined.

(** A change of a user document that keeps [_id] and [username], seen
    from [findOne({ username })], when the user the name finds is the
    user stored under its own [_id]. *)
Lemma findByUsername_updateById_exact (f : User -> User) (i : ObjectId)
    (name : string) (l : list User) (B : User) :
  (forall u, u_id (f u) = u_id u) ->
  (forall u, username (f u) = username u) ->
  findByUsername name l = Some B ->
  findById u_id (u_id B) l = Some B ->
  findByUsername name (updateById u_id i f l)
  = Some (if u_id B =? i then f B else B).
Proof.
  intros Hid Hname. unfold findByUsername, findById.
  induction l as [|u t IH]; simpl; [discriminate|].
  intros Hn Hi.
  destruct (u_id u =? i) eqn:Ei; simpl.
  - rewrite Hname.
    destruct (String.eqb (username u) name) eqn:En.
    + injection Hn as <-. now rewrite Ei.
    + destruct (u_id u =? u_id B) eqn:Eb.
      * injection Hi as <-. apply find_some in Hn.
        destruct Hn as [_ Hn]. congruence.
      * rewrite Hn. apply Nat.eqb_eq in Ei. apply Nat.eqb_neq in Eb.
        destruct (Nat.eqb_spec (u_id B) i); [congruence | reflexivity].
  - destruct (String.eqb (username u) name) eqn:En.
    + injection Hn as <-. now rewrite Ei.
    + destruct (u_id u =? u_id B) eqn:Eb.
      * injection Hi as <-. apply find_some in Hn.
        destruct Hn as [_ Hn]. congruence.
      * now apply IH.
Qed.

(** X4.  [removeFriend] undoes [acceptFriendRequest] between two
    different users: after an accept followed by a remove, both answered
    with 200, each of the two friends lists is the list from before the
    accept without the other user, so for two users who were not friends
    both lists are back to what they were. *)
Theorem removeFriend_after_accept (actor : ObjectId) (name : string)
    (s : State) (A B : User) :
  falsy name = false ->
  findById u_id actor (users s) = Some A ->
  findByUsername name (users s) = Some B ->
  findById u_id (u_id B) (users s) = Some B ->
  actor <> u_id B ->
  let s1 := snd (acceptFriendRequest actor name s) in
  let s2 := snd (removeFriend actor name s1) in
  status (fst (acceptFriendRequest actor name s)) = OK
  /\ status (fst (removeFriend actor name s1)) = OK
  /\ friendsOf actor s2 = without (u_id B) (friendsOf actor s)
  /\ friendsOf (u_id B) s2 = without actor (friendsOf (u_id B) s)
  /\ (~ In (u_id B) (friends A) -> ~ In actor (friends B) ->
      friendsOf actor s2 = friendsOf actor s
      /\ friendsOf (u_id B) s2 = friendsOf (u_id B) s).
Proof.
  intros Hn HA HB HBid Hne s1 s2.
  pose proof (findById_key _ _ _ HA) as HkA.
  assert (Hv : versionError true
                 (changed (without (u_id B) (friendRequests A))
                    (friendRequests A)) B A = false).
  { apply versionError_false. left. congruence. }
  set (g := fun r => push_friend (u_id B)
                       (set_friendRequests
                          (if changed (without (u_id B) (friendRequests A))
                                (friendRequests A)
                           then without (u_id B) (friendRequests A)
                           else friendRequests r) r)).
  assert (Hs1 : users s1
                = updateById u_id actor g
                    (updateById u_id (u_id B) (push_friend actor) (users s))).
  { unfold s1, acceptFriendRequest. rewrite Hn, HB, HA. cbv zeta.
    rewrite Hv. simpl. now rewrite HkA. }
  assert (Hr1 : status (fst (acceptFriendRequest actor name s)) = OK).
  { unfold acceptFriendRequest. rewrite Hn, HB, HA. cbv zeta.
    now rewrite Hv. }
  assert (HB' : findByUsername name
                  (updateById u_id (u_id B) (push_friend actor) (users s))
                = Some (push_friend actor B)).
  { rewrite (@findByUsername_updateById_exact (push_friend actor) (u_id B)
               name (users s) B (fun _ => eq_refl) (fun _ => eq_refl)
               HB HBid).
    now rewrite Nat.eqb_refl. }
  assert (HB'id : findById u_id (u_id (push_friend actor B))
                    (updateById u_id (u_id B) (push_friend actor) (users s))
                  = Some (push_friend actor B)).
  { simpl. rewrite findById_updateById by reflexivity.
    now rewrite Nat.eqb_refl, HBid. }
  pose proof (@findByUsername_updateById_exact g actor name _ _
                (fun _ => eq_refl) (fun _ => eq_refl) HB' HB'id) as HB1.
  rewrite <- Hs1 in HB1. simpl in HB1.
  destruct (Nat.eqb_spec (u_id B) actor) as [E'|_]; [congruence|].
  assert (HA1 : findById u_id actor (users s1) = Some (g A)).
  { rewrite Hs1, !findById_updateById by reflexivity.
    rewrite Nat.eqb_refl, HA.
    destruct (Nat.eqb_spec (u_id B) actor); [congruence | reflexivity]. }
  assert (HB1id : findById u_id (u_id (push_friend actor B)) (users s1)
                  = Some (push_friend actor B)).
  { rewrite Hs1. simpl. rewrite !findById_updateById by reflexivity.
    rewrite Nat.eqb_refl, HBid.
    destruct (Nat.eqb_spec actor (u_id B)); [congruence | reflexivity]. }
  destruct (@remove_effect actor name s1 _ _ Hn HA1 HB1 HB1id)
    as [Hr [H1 [H2 _]]].
  fold s2 in H1, H2. simpl in Hr, H1, H2.
  assert (Hv2 : versionError
                  (changed (without actor (friends B ++ [actor]))
                     (friends B ++ [actor]))
                  (changed (without (u_id B) (friends A ++ [u_id B]))
                     (friends A ++ [u_id B]))
                  (push_friend actor B) (g A) = false).
  { apply versionError_false. left. simpl. congruence. }
  rewrite Hv2 in Hr.
  assert (HfA : friendsOf actor s = friends A)
    by (unfold friendsOf; now rewrite HA).
  assert (HfB : friendsOf (u_id B) s = friends B)
    by (unfold friendsOf; now rewrite HBid).
  rewrite !without_app, !without_self, !app_nil_r in H1, H2.
  rewrite HfA, HfB, Hr.
  split; [assumption|]. split; [reflexivity|].
  split; [assumption|]. split; [assumption|].
  intros HnA HnB. now rewrite H1, H2, !without_notin.
Qed.

Lemma removeFriend_after_accept_witness :
  friendsOf 1 (snd (removeFriend 1 "bob"
                      (snd (acceptFriendRequest 1 "bob" demo)))) = []
  /\ friendsOf 2 (snd (removeFriend 1 "bob"
                         (snd (acceptFriendRequest 1 "bob" demo)))) = [].
Proof.
  destruct (@removeFriend_after_accept 1 "bob" demo alice bob
              eq_refl eq_refl eq_refl eq_refl) as [_ [_ [H1 [H2 _]]]].
  - discriminate.
  - split; [exact H1 | exact H2].
Defined.

(** X5.  [rejectFriendRequest] changes the actor's pending requests and
    nothing else: it answers 200 whether or not a request was pending,
    all friends lists and the requests of every other user stay, the
    actor keeps the requests of everybody but the target, and chats,
    groups and messages are untouched. *)
Theorem rejectFriendRequest_only_requests (actor : ObjectId) (name : string)
    (s : State) (A B : User) :
  falsy name = false ->
  findById u_id actor (users s) = Some A ->
  findByUsername name (users s) = Some B ->
  let s1 := snd (rejectFriendRequest actor name s) in
  status (fst (rejectFriendRequest actor name s)) = OK
  /\ (forall i, friendsOf i s1 = friendsOf i s)
  /\ (forall j, j <> actor -> requestsOf j s1 = requestsOf j s)
  /\ (forall j, In j (requestsOf actor s1)
                <-> In j (requestsOf actor s) /\ j <> u_id B)
  /\ chats s1 = chats s /\ groupsC s1 = groupsC s
  /\ messages s1 = messages s.
Proof.
  intros Hn HA HB s1.
  destruct (reject_effect _ _ _ Hn HA HB) as [Hr [HA1 Hf]].
  fold s1 in HA1, Hf.
  split; [now rewrite Hr|]. split; [assumption|].
  pose proof (findById_key _ _ _ HA) as HkA.
  split.
  - intros j Hj. unfold requestsOf, s1, rejectFriendRequest.
    rewrite Hn, HB, HA. simpl. rewrite HkA.
    rewrite findById_updateById by reflexivity.
    destruct (Nat.eqb_spec actor j); [congruence | reflexivity].
  - split.
    + intros j. unfold requestsOf. rewrite HA1, HA. simpl.
      apply without_spec.
    + unfold s1, rejectFriendRequest. rewrite Hn, HB, HA. now simpl.
Qed.

Lemma rejectFriendRequest_only_requests_witness :
  status (fst (rejectFriendRequest 2 "carol" demo)) = OK
  /\ friendsOf 2 (snd (rejectFriendRequest 2 "carol" demo)) = []
  /\ requestsOf 1 (snd (rejectFriendRequest 2 "carol" demo)) = [2].
Proof.
  destruct (@rejectFriendRequest_only_requests 2 "carol" demo bob carol
              eq_refl eq_refl eq_refl) as [H1 [H2 [H3 _]]].
  split; [exact H1|]. split.
  - exact (H2 2).
  - apply H3. discriminate.
Defined.

(** X6.  [listRelationships] answers 404 to an actor that is not stored
    and writes nothing; for a stored actor the [friends] payload holds
    exactly the identities of the stored users named in the actor's
    friends, and the [friendRequests] payload those named in the actor's
    requests: a reference to a user that is not stored yields no entry. *)
Theorem listRelationships_spec (actor : ObjectId) (s : State) :
  snd (listRelationships actor s) = s
  /\ (findById u_id actor (users s) = None ->
      fst (listRelationships actor s) = sendStatus NotFound)
  /\ (forall A, findById u_id actor (users s) = Some A ->
        exists fs rs,
          fst (listRelationships actor s) = mkResponse OK (BRelations fs rs)
          /\ (forall x, In x fs
                <-> exists u, In (u_id u) (friends A)
                              /\ findById u_id (u_id u) (users s) = Some u
                              /\ x = identity u)
          /\ (forall x, In x rs
                <-> exists u, In (u_id u) (friendRequests A)
                              /\ findById u_id (u_id u) (users s) = Some u
                              /\ x = identity u)).
Proof.
  unfold listRelationships.
  destruct (findById u_id actor (users s)) as [A|] eqn:HA.
  - split; [reflexivity|]. split; [discriminate|].
    intros A' [= <-]. eexists. eexists. split; [reflexivity|].
    split; intros x; rewrite in_map_iff; split.
    + intros [u [<- Hu]]. apply In_populateMany in Hu.
      destruct Hu as [i [Hi Hf]]. exists u.
      rewrite (findById_key _ _ _ Hf). auto.
    + intros [u [Hi [Hf ->]]]. exists u. split; [reflexivity|].
      apply In_populateMany. eauto.
    + intros [u [<- Hu]]. apply In_populateMany in Hu.
      destruct Hu as [i [Hi Hf]]. exists u.
      rewrite (findById_key _ _ _ Hf). auto.
    + intros [u [Hi [Hf ->]]]. exists u. split; [reflexivity|].
      apply In_populateMany. eauto.
  - split; [reflexivity|]. split; [reflexivity | discriminate].
Qed.

Lemma listRelationships_spec_witness :
  fst (listRelationships 9 demo) = sendStatus NotFound
  /\ exists fs rs,
       fst (listRelationships 1 demo) = mkResponse OK (BRelations fs rs)
       /\ In (identity bob) rs.
Proof.
  split.
  - apply (proj1 (proj2 (listRelationships_spec 9 demo))). reflexivity.
  - destruct (proj2 (proj2 (listRelationships_spec 1 demo)) alice eq_refl)
      as [fs [rs [H [_ Hr]]]].
    exists fs, rs. split; [exact H|].
    apply Hr. exists bob. repeat split. simpl. auto.
Defined.

(** ** Registration, login and the user collection *)

Lemma findByUsername_app (name : string) (l l' : list User) :
  findByUsername name (l ++ l') =
  match findByUsername name l with
  | Some u => Some u
  | None => findByUsername name l'
  end.
Proof.
  unfold findByUsername. induction l as [|u t IH]; simpl; [reflexivity|].
  now destruct (String.eqb (username u) name).
Qed.

Lemma findByUsername_None (name : string) (l : list User) :
  findByUsername name l = None <-> ~ In name (map username l).
Proof.
  unfold findByUsername. rewrite in_map_iff. split.
  - intros H [u [Hu Hin]]. apply (find_none _ _ H) in Hin.
    rewrite <- Hu, String.eqb_refl in Hin. discriminate.
  - intros H. destruct (find _ l) as [u|] eqn:E; [|reflexivity].
    apply find_some in E. destruct E as [Hin Hu].
    apply String.eqb_eq in Hu. exfalso. apply H. now exists u.
Qed.

(** X7.  [register] with a username and a password: a free username is
    answered with 201 and a user is stored under it with the hash, no
    friends, no requests and no groups, while every other username finds
    what it found before; a second registration of the name is answered
    with 409; a taken username is answered with 409 and nothing is
    written. *)
Theorem register_spec (name password hashed : string) (s : State) :
  falsy name = false ->
  falsy password = false ->
  (findByUsername name (users s) = None ->
   let s1 := snd (register name password hashed s) in
   fst (register name password hashed s) = sendStatus Created
   /\ findByUsername name (users s1)
      = Some (mkUser (next_id s) name hashed false [] [] [])
   /\ (forall other, other <> name ->
         findByUsername other (users s1) = findByUsername other (users s))
   /\ register name password hashed s1 = (sendStatus Conflict, s1))
  /\ (forall u, findByUsername name (users s) = Some u ->
        register name password hashed s = (sendStatus Conflict, s)).
Proof.
  intros Hn Hp. split.
  - intros Hfree s1.
    assert (Hs1 : users s1
                  = users s ++ [mkUser (next_id s) name hashed false [] [] []]).
    { unfold s1, register. now rewrite Hn, Hp, Hfree. }
    assert (Hfound : findByUsername name (users s1)
                     = Some (mkUser (next_id s) name hashed false [] [] [])).
    { rewrite Hs1, findByUsername_app, Hfree. unfold findByUsername. simpl.
      now rewrite String.eqb_refl. }
    split; [unfold register; now rewrite Hn, Hp, Hfree|].
    split; [assumption|]. split.
    + intros other Hne. rewrite Hs1, findByUsername_app.
      destruct (findByUsername other (users s)); [reflexivity|].
      unfold findByUsername. simpl.
      destruct (String.eqb_spec name other); [congruence | reflexivity].
    + unfold register at 1. now rewrite Hn, Hp, Hfound.
  - intros u Hu. unfold register. now rewrite Hn, Hp, Hu.
Qed.

Lemma register_spec_witness :
  findByUsername "dave" (users (snd (register "dave" "pw" "h4" demo)))
  = Some (mkUser 40 "dave" "h4" false [] [] [])
  /\ register "bob" "pw" "h5" demo = (sendStatus Conflict, demo).
Proof.
  destruct (register_spec "dave" "pw" "h4" demo eq_refl eq_refl) as [H _].
  destruct (register_spec "bob" "pw" "h5" demo eq_refl eq_refl) as [_ H'].
  split.
  - exact (proj1 (proj2 (H eq_refl))).
  - exact (H' bob eq_refl).
Defined.



Ltac break_handler :=
  repeat match goal with
         | |- context [match ?x with _ => _ end] => destruct x eqn:?
         end.

Ltac unfold_handlers :=
  unfold register, login, usersModel, me, listRelationships,
    sendFriendRequest, removeFriend, acceptFriendRequest, rejectFriendRequest, createGroup,
    addGroupMember, removeGroupMember, createChat, listMessages,
    postMessage, getMessage, setReadStatus, joinChat, leaveChat.

(** What a request can do to the usernames of the user collection:
    nothing, or add one that nobody had. *)
Lemma handle_usernames (q : Request) (s : State) :
  map username (users (snd (handle q s))) = map username (users s)
  \/ exists n, findByUsername n (users s) = None
               /\ map username (users (snd (handle q s)))
                  = map username (users s) ++ [n].
Proof.
  destruct q; simpl; unfold_handlers; break_handler; simpl;
    rewrite ?map_updateById, ?map_updateMany by reflexivity;
    try (left; reflexivity).
  right. exists name. split; [assumption|]. now rewrite map_app.
Qed.

(** X9.  Usernames stay unique: from a user collection in which no two
    users share a username, no sequence of requests reaches one in which
    two do. *)
Theorem usernames_stay_unique (qs : list Request) (s : State) :
  NoDup (map username (users s)) ->
  NoDup (map username (users (run qs s))).
Proof.
  revert s. induction qs as [|q t IH]; intros s H; simpl; [assumption|].
  apply IH.
  destruct (handle_usernames q s) as [E|[n [Hn E]]]; rewrite E.
  - assumption.
  - apply NoDup_app; [assumption | repeat constructor; auto |].
    intros a Ha [<-|[]]. now apply findByUsername_None in Hn.
Qed.

Lemma usernames_stay_unique_witness :
  NoDup (map username
           (users (run [Register "bob" "pw" "h5"; Register "dave" "pw" "h4";
                        AcceptFriendRequest 1 "bob";
                        CreateGroup "g" [1; 3] 9] demo))).
Proof.
  apply (usernames_stay_unique
           [Register "bob" "pw" "h5"; Register "dave" "pw" "h4";
            AcceptFriendRequest 1 "bob"; CreateGroup "g" [1; 3] 9] demo).
  simpl. repeat constructor; simpl; intuition discriminate.
Defined.

(** One request keeps every stored user, with its username, password
    hash and [connected] flag. *)
Lemma handle_user_kept (q : Request) (s : State) (i : ObjectId) (u : User) :
  findById u_id i (users s) = Some u ->
  exists u', findById u_id i (users (snd (handle q s))) = Some u'
             /\ username u' = username u
             /\ passwordHash u' = passwordHash u
             /\ connected u' = connected u.
Proof.
  intros H.
  destruct q; simpl; unfold_handlers; break_handler; simpl;
    rewrite ?findById_updateById, ?findById_updateMany, ?findById_app
      by reflexivity;
    rewrite ?H; simpl;
    repeat match goal with
           | |- context [if ?b then _ else _] => destruct b
           end;
    rewrite ?H; simpl; eauto.
Qed.

(** X10.  No sequence of requests deletes a user or changes a user's
    username, password hash or [connected] flag. *)
Theorem users_kept (qs : list Request) (s : State) (i : ObjectId)
    (u : User) :
  findById u_id i (users s) = Some u ->
  exists u', findById u_id i (users (run qs s)) = Some u'
             /\ username u' = username u
             /\ passwordHash u' = passwordHash u
             /\ connected u' = connected u.
Proof.
  revert s u. induction qs as [|q t IH]; intros s u H; simpl.
  - now exists u.
  - destruct (handle_user_kept q s i H) as [u1 [H1 [E1 [E2 E3]]]].
    destruct (IH _ _ H1) as [u2 [H2 [F1 [F2 F3]]]].
    exists u2. repeat split; congruence.
Qed.

Lemma users_kept_witness :
  exists u', findById u_id 2
               (users (run [RemoveFriend 1 "bob"; AcceptFriendRequest 1 "bob";
                            RemoveGroupMember 1 10 2] demo)) = Some u'
             /\ username u' = "bob"
             /\ passwordHash u' = "h2"
             /\ connected u' = false.
Proof.
  apply (@users_kept [RemoveFriend 1 "bob"; AcceptFriendRequest 1 "bob";
                      RemoveGroupMember 1 10 2] demo 2 bob).
  reflexivity.
Defined.

(** ** Groups *)

(** X11.  [createGroup] with a name answers 201 and stores the group with
    exactly the participants it was given and no messages; every stored
    user named in the participants gets the id of the group appended to
    their groups and every other stored user keeps theirs; chats and
    messages are untouched.  Without a name it answers 500 and writes
    nothing. *)
Theorem createGroup_spec (name : string) (ps : list ObjectId) (now : nat)
    (s : State) :
  (falsy name = true -> createGroup name ps now s = (thrown, s))
  /\ (falsy name = false ->
      let s1 := snd (createGroup name ps now s) in
      let g := mkGroup (next_id s) name ps [] now in
      fst (createGroup name ps now s) = mkResponse Created (BGroup g)
      /\ groupsC s1 = groupsC s ++ [g]
      /\ (forall i u, findById u_id i (users s) = Some u ->
            (In i ps -> groupsOf i s1 = groups u ++ [next_id s])
            /\ (~ In i ps -> groupsOf i s1 = groups u))
      /\ chats s1 = chats s /\ messages s1 = messages s).
Proof.
  unfold createGroup. split; intros Hn; rewrite Hn; [reflexivity|].
  simpl. repeat split.
  - intros Hin. unfold groupsOf. simpl.
    rewrite findById_updateMany by reflexivity. rewrite H. simpl.
    rewrite (findById_key _ _ _ H).
    apply includes_In in Hin. now rewrite Hin.
  - intros Hout. unfold groupsOf. simpl.
    rewrite findById_updateMany by reflexivity. rewrite H. simpl.
    rewrite (findById_key _ _ _ H).
    apply includes_not_In in Hout. now rewrite Hout.
Qed.

Lemma createGroup_spec_witness :
  createGroup "" [1] 9 demo = (thrown, demo)
  /\ groupsOf 3 (snd (createGroup "g" [3] 9 demo)) = [40]
  /\ groupsOf 1 (snd (createGroup "g" [3] 9 demo)) = [10].
Proof.
  split; [|split].
  - apply (proj1 (createGroup_spec "" [1] 9 demo)). reflexivity.
  - destruct (proj2 (createGroup_spec "g" [3] 9 demo) eq_refl)
      as [_ [_ [H _]]].
    apply (proj1 (H 3 carol eq_refl)). simpl. auto.
  - destruct (proj2 (createGroup_spec "g" [3] 9 demo) eq_refl)
      as [_ [_ [H _]]].
    apply (proj2 (H 1 alice eq_refl)). simpl. intros [E|[]]. discriminate.
Defined.

(** X12.  [createGroup] never adds the requester: in a group just
    created under a fresh id, whoever is not named in the participants is
    answered with 403 by [addGroupMember], and whoever is named can add
    a user who is not. *)
Theorem createGroup_then_add (name : string) (ps : list ObjectId)
    (now : nat) (s : State) (actor uid : ObjectId) :
  falsy name = false ->
  findById g_id (next_id s) (groupsC s) = None ->
  let s1 := snd (createGroup name ps now s) in
  (~ In actor ps ->
   addGroupMember actor (next_id s) uid s1 = (notAuthorized, s1))
  /\ (In actor ps -> ~ In uid ps ->
      status (fst (addGroupMember actor (next_id s) uid s1)) = OK
      /\ groupParticipants (next_id s)
           (snd (addGroupMember actor (next_id s) uid s1))
         = Some (ps ++ [uid])).
Proof.
  intros Hn Hfresh s1.
  assert (Hg : findById g_id (next_id s) (groupsC s1)
               = Some (mkGroup (next_id s) name ps [] now)).
  { unfold s1, createGroup. rewrite Hn. simpl.
    rewrite findById_app, Hfresh. unfold findById. simpl.
    now rewrite Nat.eqb_refl. }
  unfold addGroupMember, groupParticipants. rewrite Hg. simpl. split.
  - intros Hout. apply includes_not_In in Hout. now rewrite Hout.
  - intros Hin Hout. apply includes_In in Hin.
    apply includes_not_In in Hout. rewrite Hin, Hout. simpl.
    split; [reflexivity|].
    rewrite findById_updateById by reflexivity.
    now rewrite Nat.eqb_refl, Hg.
Qed.

Lemma createGroup_then_add_witness :
  addGroupMember 1 40 2 (snd (createGroup "g" [3] 9 demo))
  = (notAuthorized, snd (createGroup "g" [3] 9 demo))
  /\ groupParticipants 40
       (snd (addGroupMember 3 40 2 (snd (createGroup "g" [3] 9 demo))))
     = Some [3; 2].
Proof.
  split.
  - apply (proj1 (@createGroup_then_add "g" [3] 9 demo 1 2
                    eq_refl eq_refl)).
    simpl. intros [E|[]]. discriminate.
  - apply (proj2 (@createGroup_then_add "g" [3] 9 demo 3 2
                    eq_refl eq_refl)).
    + simpl. auto.
    + simpl. intros [E|[]]. discriminate.
Defined.

(** What [addGroupMember] leaves in the store when a participant adds a
    user who is not one. *)
Lemma add_effect (actor gid uid : ObjectId) (s : State) (g : Group) :
  findById g_id gid (groupsC s) = Some g ->
  In actor (g_participants g) ->
  ~ In uid (g_participants g) ->
  addGroupMember actor gid uid s
  = (mkResponse OK (BGroup (push_participant uid g)),
     set_users
       (set_groups s (updateById g_id gid (push_participant uid) (groupsC s)))
       (updateById u_id uid (push_group gid) (users s))).
Proof.
  intros Hg Hin Hout. pose proof (findById_key _ _ _ Hg) as Hk.
  apply includes_In in Hin. apply includes_not_In in Hout.
  unfold addGroupMember. rewrite Hg, Hin, Hout. simpl. now rewrite Hk.
Qed.

(** What [removeGroupMember] leaves in the store when a participant
    removes a participant. *)
Lemma pull_effect (actor gid uid : ObjectId) (s : State) (g : Group) :
  findById g_id gid (groupsC s) = Some g ->
  In actor (g_participants g) ->
  In uid (g_participants g) ->
  removeGroupMember actor gid uid s
  = (mkResponse OK (BGroup (pull_participant uid g)),
     set_users
       (set_groups s (updateById g_id gid (pull_participant uid) (groupsC s)))
       (updateById u_id uid (pull_group gid) (users s))).
Proof.
  intros Hg Hin Hin'. pose proof (findById_key _ _ _ Hg) as Hk.
  apply includes_In in Hin. apply includes_In in Hin'.
  unfold removeGroupMember. rewrite Hg, Hin, Hin'. simpl. now rewrite Hk.
Qed.

(** X13.  [addGroupMember] by a participant: a user who is already a
    participant is answered with 400 and nothing is written; any other
    id is answered with 200 and appended to the participants stored for
    the group, whether or not a user is stored under it.  A stored user
    gets the group appended to their groups, and every other group is
    left as it was. *)
Theorem addGroupMember_spec (actor gid uid : ObjectId) (s : State)
    (g : Group) :
  findById g_id gid (groupsC s) = Some g ->
  In actor (g_participants g) ->
  (In uid (g_participants g) ->
   addGroupMember actor gid uid s
   = (mkResponse BadRequest (BText "User is already in the group."), s))
  /\ (~ In uid (g_participants g) ->
      let s1 := snd (addGroupMember actor gid uid s) in
      status (fst (addGroupMember actor gid uid s)) = OK
      /\ groupParticipants gid s1 = Some (g_participants g ++ [uid])
      /\ (forall u, findById u_id uid (users s) = Some u ->
            groupsOf uid s1 = groups u ++ [gid])
      /\ (findById u_id uid (users s) = None -> users s1 = users s)
      /\ (forall j, j <> gid ->
            findById g_id j (groupsC s1) = findById g_id j (groupsC s))).
Proof.
  intros Hg Hin. split.
  - intros Hin'. apply includes_In in Hin. apply includes_In in Hin'.
    unfold addGroupMember. now rewrite Hg, Hin, Hin'.
  - intros Hout s1. unfold s1. rewrite (@add_effect actor gid uid s g Hg Hin Hout). simpl.
    split; [reflexivity|].
    unfold groupParticipants, groupsOf. simpl.
    split; [lookup_updated|].
    split; [intros u Hu; lookup_updated|].
    split; [intros Hu; now apply updateById_absent|].
    intros j Hj. lookup_updated.
Qed.

Lemma addGroupMember_spec_witness :
  status (fst (addGroupMember 1 10 2 demo)) = BadRequest
  /\ groupParticipants 10 (snd (addGroupMember 1 10 9 demo)) = Some [1; 2; 9]
  /\ groupsOf 3 (snd (addGroupMember 2 10 3 demo)) = [10].
Proof.
  assert (Hg : findById g_id 10 (groupsC demo)
               = Some (mkGroup 10 "team" [1; 2] [] 5)) by reflexivity.
  assert (H1 : In 1 (g_participants (mkGroup 10 "team" [1; 2] [] 5)))
    by (simpl; auto).
  assert (H2 : In 2 (g_participants (mkGroup 10 "team" [1; 2] [] 5)))
    by (simpl; auto).
  split; [|split].
  - rewrite (proj1 (@addGroupMember_spec 1 10 2 demo _ Hg H1) H2).
    reflexivity.
  - apply (proj2 (@addGroupMember_spec 1 10 9 demo _ Hg H1)).
    simpl. intros [E|[E|[]]]; discriminate.
  - destruct (proj2 (@addGroupMember_spec 2 10 3 demo _ Hg H2))
      as [_ [_ [H _]]].
    + simpl. intros [E|[E|[]]]; discriminate.
    + exact (H carol eq_refl).
Defined.

(** X14.  [removeGroupMember] by a participant: an id that is not a
    participant is answered with 400 and nothing is written; a
    participant is answered with 200, disappears from the participants
    stored for the group while everybody else stays, and, when stored as
    a user, loses the group from their groups. *)
Theorem removeGroupMember_spec (actor gid uid : ObjectId) (s : State)
    (g : Group) :
  findById g_id gid (groupsC s) = Some g ->
  In actor (g_participants g) ->
  (~ In uid (g_participants g) ->
   removeGroupMember actor gid uid s
   = (mkResponse BadRequest (BText "User is not in the group."), s))
  /\ (In uid (g_participants g) ->
      let s1 := snd (removeGroupMember actor gid uid s) in
      status (fst (removeGroupMember actor gid uid s)) = OK
      /\ groupParticipants gid s1 = Some (without uid (g_participants g))
      /\ (forall j, In j (without uid (g_participants g))
                    <-> In j (g_participants g) /\ j <> uid)
      /\ (forall u, findById u_id uid (users s) = Some u ->
            groupsOf uid s1 = without gid (groups u))).
Proof.
  intros Hg Hin. split.
  - intros Hout. apply includes_In in Hin. apply includes_not_In in Hout.
    unfold removeGroupMember. now rewrite Hg, Hin, Hout.
  - intros Hin' s1. unfold s1. rewrite (@pull_effect actor gid uid s g Hg Hin Hin'). simpl.
    split; [reflexivity|].
    unfold groupParticipants, groupsOf. simpl.
    split; [lookup_updated|].
    split; [intros j; apply without_spec|].
    intros u Hu. lookup_updated.
Qed.

Lemma removeGroupMember_spec_witness :
  status (fst (removeGroupMember 1 10 3 demo)) = BadRequest
  /\ groupParticipants 10 (snd (removeGroupMember 1 10 2 demo)) = Some [1]
  /\ groupsOf 2 (snd (removeGroupMember 1 10 2 demo)) = [].
Proof.
  assert (Hg : findById g_id 10 (groupsC demo)
               = Some (mkGroup 10 "team" [1; 2] [] 5)) by reflexivity.
  assert (H1 : In 1 (g_participants (mkGroup 10 "team" [1; 2] [] 5)))
    by (simpl; auto).
  assert (H2 : In 2 (g_participants (mkGroup 10 "team" [1; 2] [] 5)))
    by (simpl; auto).
  split; [|split].
  - rewrite (proj1 (@removeGroupMember_spec 1 10 3 demo _ Hg H1)).
    + reflexivity.
    + simpl. intros [E|[E|[]]]; discriminate.
  - exact (proj1 (proj2 (proj2 (@removeGroupMember_spec 1 10 2 demo _ Hg H1)
                           H2))).
  - destruct (proj2 (@removeGroupMember_spec 1 10 2 demo _ Hg H1) H2)
      as [_ [_ [_ H]]].
    exact (H bob eq_refl).
Defined.

(** X15.  [removeGroupMember] undoes [addGroupMember]: when a participant
    adds a user who is not one and then removes them, both calls answer
    200 and the participants stored for the group are back to what they
    were, as are the groups of the user when the group was not among
    them. *)
Theorem removeGroupMember_after_add (actor gid uid : ObjectId) (s : State)
    (g : Group) :
  findById g_id gid (groupsC s) = Some g ->
  In actor (g_participants g) ->
  ~ In uid (g_participants g) ->
  let s1 := snd (addGroupMember actor gid uid s) in
  let s2 := snd (removeGroupMember actor gid uid s1) in
  status (fst (addGroupMember actor gid uid s)) = OK
  /\ status (fst (removeGroupMember actor gid uid s1)) = OK
  /\ groupParticipants gid s2 = Some (g_participants g)
  /\ (forall u, findById u_id uid (users s) = Some u ->
        ~ In gid (groups u) -> groupsOf uid s2 = groups u).
Proof.
  intros Hg Hin Hout s1 s2.
  pose proof (@add_effect actor gid uid s g Hg Hin Hout) as Hadd.
  assert (Hg1 : findById g_id gid (groupsC s1)
                = Some (push_participant uid g)).
  { unfold s1. rewrite Hadd. simpl. lookup_updated. }
  assert (Hin1 : In actor (g_participants (push_participant uid g)))
    by (simpl; apply in_or_app; now left).
  assert (Hin2 : In uid (g_participants (push_participant uid g)))
    by (simpl; apply in_or_app; right; simpl; auto).
  pose proof (@pull_effect actor gid uid s1 _ Hg1 Hin1 Hin2) as Hpull.
  split; [now rewrite Hadd|]. split; [now rewrite Hpull|].
  unfold s2. rewrite Hpull. unfold groupParticipants, groupsOf. simpl.
  split.
  - rewrite findById_updateById by reflexivity.
    rewrite Nat.eqb_refl, Hg1. simpl.
    now rewrite without_app, without_self, app_nil_r, without_notin.
  - intros u Hu Hfresh.
    rewrite findById_updateById by reflexivity. rewrite Nat.eqb_refl.
    unfold s1. rewrite Hadd. simpl.
    rewrite findById_updateById by reflexivity.
    rewrite Nat.eqb_refl, Hu. simpl.
    now rewrite without_app, without_self, app_nil_r, without_notin.
Qed.

Lemma removeGroupMember_after_add_witness :
  groupParticipants 10
    (snd (removeGroupMember 1 10 3 (snd (addGroupMember 1 10 3 demo))))
  = Some [1; 2]
  /\ groupsOf 3
       (snd (removeGroupMember 1 10 3 (snd (addGroupMember 1 10 3 demo))))
     = [].
Proof.
  assert (Hg : findById g_id 10 (groupsC demo)
               = Some (mkGroup 10 "team" [1; 2] [] 5)) by reflexivity.
  assert (H1 : In 1 (g_participants (mkGroup 10 "team" [1; 2] [] 5)))
    by (simpl; auto).
  assert (H3 : ~ In 3 (g_participants (mkGroup 10 "team" [1; 2] [] 5))).
  { simpl. intros [E|[E|[]]]; discriminate. }
  destruct (@removeGroupMember_after_add 1 10 3 demo _ Hg H1 H3)
    as [_ [_ [Hp Hu]]].
  split; [exact Hp|].
  apply (Hu carol eq_refl). simpl. tauto.
Defined.

(** ** Messages *)

(** X16.  [postMessage] with a content files the new message id under
    one conversation at most.  With a [chat] it is appended to the
    messages of that chat (when it is stored), every other chat and all
    groups stay as they were, whatever [group] is and whether or not the
    actor is a participant; with a [group] and no [chat] it is appended
    to the messages of that group and all chats stay as they were. *)
Theorem postMessage_routing (actor : ObjectId) (text : string) (now : nat)
    (s : State) :
  falsy text = false ->
  (forall c group,
     let s1 := snd (postMessage actor text (Some c) group now s) in
     chatMessages c s1
     = option_map (fun l => l ++ [next_id s]) (chatMessages c s)
     /\ (forall j, j <> c -> chatMessages j s1 = chatMessages j s)
     /\ groupsC s1 = groupsC s /\ users s1 = users s)
  /\ (forall g,
        let s1 := snd (postMessage actor text None (Some g) now s) in
        groupMessages g s1
        = option_map (fun l => l ++ [next_id s]) (groupMessages g s)
        /\ (forall j, j <> g -> groupMessages j s1 = groupMessages j s)
        /\ groupParticipants g s1 = groupParticipants g s
        /\ chats s1 = chats s /\ users s1 = users s).
Proof.
  intros Hn. unfold postMessage. rewrite Hn. split.
  - intros c group. simpl. unfold chatMessages. simpl.
    split; [|split; [|split; reflexivity]].
    + rewrite findById_updateById by reflexivity. rewrite Nat.eqb_refl.
      now destruct (findById c_id c (chats s)).
    + intros j Hj. rewrite findById_updateById by reflexivity.
      destruct (Nat.eqb_spec c j); [congruence | reflexivity].
  - intros g. simpl. unfold groupMessages, groupParticipants. simpl.
    split; [|split; [|split; [|split; reflexivity]]].
    + rewrite findById_updateById by reflexivity. rewrite Nat.eqb_refl.
      now destruct (findById g_id g (groupsC s)).
    + intros j Hj. rewrite findById_updateById by reflexivity.
      destruct (Nat.eqb_spec g j); [congruence | reflexivity].
    + rewrite findById_updateById by reflexivity. rewrite Nat.eqb_refl.
      now destruct (findById g_id g (groupsC s)).
Qed.

Lemma postMessage_routing_witness :
  chatMessages 20 (snd (postMessage 3 "yo" (Some 20) (Some 10) 8 demo))
  = Some [30; 40]
  /\ groupsC (snd (postMessage 3 "yo" (Some 20) (Some 10) 8 demo))
     = groupsC demo
  /\ groupMessages 10 (snd (postMessage 3 "yo" None (Some 10) 8 demo))
     = Some [40].
Proof.
  destruct (@postMessage_routing 3 "yo" 8 demo eq_refl) as [H1 H2].
  destruct (H1 20 (Some 10)) as [Ha [_ [Hb _]]].
  destruct (H2 10) as [Hc _].
  split; [exact Ha|]. split; [exact Hb | exact Hc].
Defined.

Lemma populateMany_ext (A : Type) (key : A -> ObjectId)
    (ids : list ObjectId) (l l' : list A) :
  (forall i, In i ids -> findById key i l = findById key i l') ->
  populateMany key ids l = populateMany key ids l'.
Proof.
  unfold populateMany. induction ids as [|i t IH]; simpl; intros H.
  - reflexivity.
  - rewrite (H i) by now left. f_equal. apply IH.
    intros j Hj. apply H. now right.
Qed.

(** X17.  A posted message shows up at the end of the chat: when the id
    the message gets is fresh, [listMessages] by a participant after a
    [postMessage] to the chat answers with the list it answered before
    followed by the new message, unread, with its sender populated. *)
Theorem listMessages_after_post (actor reader c : ObjectId) (text : string)
    (group : option ObjectId) (now : nat) (s : State) (ch : Chat) :
  falsy text = false ->
  findById c_id c (chats s) = Some ch ->
  In reader (c_participants ch) ->
  findById m_id (next_id s) (messages s) = None ->
  ~ In (next_id s) (c_messages ch) ->
  let s1 := snd (postMessage actor text (Some c) group now s) in
  let m := mkMessage (next_id s) actor text now false (Some c) group in
  exists old,
    fst (listMessages reader c s) = mkResponse OK (BMessages old)
    /\ fst (listMessages reader c s1)
       = mkResponse OK
           (BMessages
              (old ++ [mkPopulated m (findById u_id actor (users s))])).
Proof.
  intros Hn Hc Hin Hfresh Hnew s1 m.
  apply includes_In in Hin.
  exists (map (populateSender s)
            (populateMany m_id (c_messages ch) (messages s))).
  split; [unfold listMessages; now rewrite Hc, Hin|].
  assert (Hc1 : findById c_id c (chats s1)
                = Some (push_chat_message (next_id s) ch)).
  { unfold s1, postMessage. rewrite Hn. simpl.
    rewrite findById_updateById by reflexivity.
    now rewrite Nat.eqb_refl, Hc. }
  assert (Hm1 : messages s1 = messages s ++ [m]).
  { unfold s1, postMessage. now rewrite Hn. }
  assert (Hu1 : users s1 = users s).
  { unfold s1, postMessage. now rewrite Hn. }
  unfold listMessages. rewrite Hc1. simpl. rewrite Hin. simpl.
  assert (E1 : populateMany m_id (c_messages ch) (messages s ++ [m])
               = populateMany m_id (c_messages ch) (messages s)).
  { apply populateMany_ext. intros i Hi. rewrite findById_app.
    destruct (findById m_id i (messages s)); [reflexivity|].
    unfold findById. simpl.
    destruct (Nat.eqb_spec (next_id s) i); [congruence | reflexivity]. }
  assert (E2 : populateMany m_id [next_id s] (messages s ++ [m]) = [m]).
  { unfold populateMany. simpl. rewrite findById_app, Hfresh.
    unfold findById. simpl. now rewrite Nat.eqb_refl. }
  rewrite Hm1, populateMany_app, map_app, E1, E2.
  unfold populateSender. now rewrite Hu1.
Qed.

Lemma listMessages_after_post_witness :
  exists old,
    fst (listMessages 2 20 demo) = mkResponse OK (BMessages old)
    /\ fst (listMessages 2 20
              (snd (postMessage 1 "yo" (Some 20) None 8 demo)))
       = mkResponse OK
           (BMessages
              (old ++ [mkPopulated
                         (mkMessage 40 1 "yo" 8 false (Some 20) None)
                         (Some alice)])).
Proof.
  apply (@listMessages_after_post 1 2 20 "yo" None 8 demo
           (mkChat 20 [1; 2] [30]) eq_refl eq_refl).
  - simpl. auto.
  - reflexivity.
  - simpl. intros [E|[]]. discriminate.
Defined.

(** X18.  A posted message can be fetched by its id: when the id is
    fresh, [getMessage] for the id of the message [postMessage] has just
    answered with returns that message, unread, sent by the actor, with
    the content and the destinations of the request. *)
Theorem getMessage_after_post (actor : ObjectId) (text : string)
    (chat group : option ObjectId) (now : nat) (s : State) :
  falsy text = false ->
  findById m_id (next_id s) (messages s) = None ->
  let s1 := snd (postMessage actor text chat group now s) in
  let m := mkMessage (next_id s) actor text now false chat group in
  fst (postMessage actor text chat group now s)
  = mkResponse Created
      (BPosted (mkPopulated m
                  (option_map identity (findById u_id actor (users s)))))
  /\ getMessage (m_id m) s1
     = (mkResponse OK
          (BMessage (Some (mkPopulated m (findById u_id actor (users s))))),
        s1).
Proof.
  intros Hn Hfresh s1 m.
  assert (Hm1 : messages s1 = messages s ++ [m]).
  { unfold s1, postMessage. rewrite Hn.
    now destruct chat as [c|], group as [g|]. }
  assert (Hu1 : users s1 = users s).
  { unfold s1, postMessage. rewrite Hn.
    now destruct chat as [c|], group as [g|]. }
  split.
  - unfold postMessage. rewrite Hn.
    now destruct chat as [c|], group as [g|].
  - unfold getMessage. rewrite Hm1, findById_app. simpl. rewrite Hfresh.
    unfold findById. simpl. rewrite Nat.eqb_refl. simpl.
    unfold populateSender. now rewrite Hu1.
Qed.

Lemma getMessage_after_post_witness :
  fst (getMessage 40 (snd (postMessage 2 "yo" None None 8 demo)))
  = mkResponse OK
      (BMessage (Some (mkPopulated (mkMessage 40 2 "yo" 8 false None None)
                         (Some bob)))).
Proof.
  destruct (@getMessage_after_post 2 "yo" None None 8 demo eq_refl eq_refl)
    as [_ H].
  exact (f_equal fst H).
Defined.

Lemma set_messages_same (s : State) : set_messages s (messages s) = s.
Proof. now destruct s. Qed.

(** X19.  [setReadStatus] for an id that names no message answers 200
    with [null] and writes nothing; for a stored message it answers 200
    with the message carrying the new flag, and [getMessage] then returns
    the message with that flag and the sender, content, timestamp and
    destinations it had, while every other message is as it was. *)
Theorem setReadStatus_spec (mid : ObjectId) (b : bool) (s : State) :
  (findById m_id mid (messages s) = None ->
   setReadStatus mid b s = (mkResponse OK (BUpdated None), s))
  /\ (forall m, findById m_id mid (messages s) = Some m ->
        let s1 := snd (setReadStatus mid b s) in
        let m' := mkMessage (m_id m) (sender m) (content m) (timestamp m) b
                            (chat m) (group m) in
        fst (setReadStatus mid b s) = mkResponse OK (BUpdated (Some m'))
        /\ fst (getMessage mid s1)
           = mkResponse OK
               (BMessage (Some (mkPopulated m'
                                  (findById u_id (sender m) (users s)))))
        /\ (forall j, j <> mid ->
              findById m_id j (messages s1) = findById m_id j (messages s))
        /\ users s1 = users s /\ chats s1 = chats s
        /\ groupsC s1 = groupsC s).
Proof.
  unfold setReadStatus. split.
  - intros H. rewrite (@updateById_absent _ m_id mid (set_isRead b) _ H), H.
    now rewrite set_messages_same.
  - intros m H. simpl.
    rewrite !findById_updateById by reflexivity.
    rewrite Nat.eqb_refl, H. simpl.
    split; [reflexivity|].
    split.
    + unfold getMessage. simpl.
      rewrite ?findById_updateById by reflexivity.
      now rewrite ?Nat.eqb_refl, ?H.
    + split; [|now repeat split].
      intros j Hj. rewrite findById_updateById by reflexivity.
      destruct (Nat.eqb_spec mid j); [congruence | reflexivity].
Qed.

Lemma setReadStatus_spec_witness :
  setReadStatus 31 true demo = (mkResponse OK (BUpdated None), demo)
  /\ fst (getMessage 30 (snd (setReadStatus 30 true demo)))
     = mkResponse OK
         (BMessage (Some (mkPopulated
                            (mkMessage 30 1 "hi" 7 true (Some 20) None)
                            (Some alice)))).
Proof.
  split.
  - apply (proj1 (setReadStatus_spec 31 true demo)). reflexivity.
  - destruct (proj2 (setReadStatus_spec 30 true demo)
                (mkMessage 30 1 "hi" 7 false (Some 20) None) eq_refl)
      as [_ [H _]].
    exact H.
Defined.

(** One request keeps every stored message, with its sender, content,
    timestamp and destinations. *)
Lemma handle_message_kept (q : Request) (s : State) (i : ObjectId)
    (m : Message) :
  findById m_id i (messages s) = Some m ->
  exists m', findById m_id i (messages (snd (handle q s))) = Some m'
             /\ sender m' = sender m /\ content m' = content m
             /\ timestamp m' = timestamp m
             /\ chat m' = chat m /\ group m' = group m.
Proof.
  intros H.
  destruct q; simpl; unfold_handlers; break_handler; simpl;
    rewrite ?findById_updateById, ?findById_app by reflexivity;
    rewrite ?H; simpl;
    repeat match goal with
           | |- context [if ?b then _ else _] => destruct b
           end;
    rewrite ?H; simpl; eauto 10.
Qed.

(** X20.  A stored message is never deleted, moved or rewritten: through
    every sequence of requests it stays stored under its id with the
    sender, content, timestamp, chat and group it has; only its read flag
    can change. *)
Theorem messages_kept (qs : list Request) (s : State) (i : ObjectId)
    (m : Message) :
  findById m_id i (messages s) = Some m ->
  exists m', findById m_id i (messages (run qs s)) = Some m'
             /\ sender m' = sender m /\ content m' = content m
             /\ timestamp m' = timestamp m
             /\ chat m' = chat m /\ group m' = group m.
Proof.
  revert s m. induction qs as [|q t IH]; intros s m H; simpl.
  - exists m. now repeat split.
  - destruct (handle_message_kept q s i H)
      as [m1 [H1 [E1 [E2 [E3 [E4 E5]]]]]].
    destruct (IH _ _ H1) as [m2 [H2 [F1 [F2 [F3 [F4 F5]]]]]].
    exists m2. repeat split; congruence.
Qed.

Lemma messages_kept_witness :
  exists m', findById m_id 30
               (messages (run [SetReadStatus 30 true;
                               PostMessage 2 "yo" (Some 20) None 8;
                               RemoveFriend 1 "bob"] demo)) = Some m'
             /\ sender m' = 1 /\ content m' = "hi" /\ timestamp m' = 7
             /\ chat m' = Some 20 /\ group m' = None.
Proof.
  apply (@messages_kept [SetReadStatus 30 true;
                         PostMessage 2 "yo" (Some 20) None 8;
                         RemoveFriend 1 "bob"] demo 30
           (mkMessage 30 1 "hi" 7 false (Some 20) None)).
  reflexivity.
Defined.

(** One request keeps every stored group with its name and creation
    time, and only appends to its messages. *)
Lemma handle_group_kept (q : Request) (s : State) (i : ObjectId)
    (g : Group) :
  findById g_id i (groupsC s) = Some g ->
  exists g' l, findById g_id i (groupsC (snd (handle q s))) = Some g'
               /\ g_name g' = g_name g /\ createdAt g' = createdAt g
               /\ g_messages g' = g_messages g ++ l.
Proof.
  intros H.
  destruct q; simpl; unfold_handlers; break_handler; simpl;
    rewrite ?findById_updateById, ?findById_app by reflexivity;
    rewrite ?H; simpl;
    repeat match goal with
           | |- context [if ?b then _ else _] => destruct b
           end;
    rewrite ?H; simpl;
    first [ exists g, []; rewrite app_nil_r; now repeat split
          | eexists; exists []; rewrite app_nil_r; now repeat split
          | eexists; eexists; now repeat split ].
Qed.

(** One request only appends to the messages of a stored chat. *)
Lemma handle_chat_messages (q : Request) (s : State) (i : ObjectId)
    (l : list ObjectId) :
  chatMessages i s = Some l ->
  exists l', chatMessages i (snd (handle q s)) = Some (l ++ l').
Proof.
  unfold chatMessages. intros H.
  destruct (findById c_id i (chats s)) as [c|] eqn:Hc; [|discriminate].
  injection H as <-.
  destruct (handle_chats q s) as [E|[[c' E]|[j [m E]]]]; rewrite E.
  - exists []. now rewrite Hc, app_nil_r.
  - exists []. now rewrite findById_app, Hc, app_nil_r.
  - rewrite findById_updateById by reflexivity.
    destruct (j =? i); rewrite Hc; simpl.
    + now exists [m].
    + exists []. now rewrite app_nil_r.
Qed.

(** X21.  Conversations are append-only logs: through every sequence of
    requests the messages stored for a chat, and those stored for a
    group, keep what they hold as a prefix, and a group is never deleted
    or renamed. *)
Theorem conversations_append_only (qs : list Request) (s : State)
    (i : ObjectId) :
  (forall l, chatMessages i s = Some l ->
     exists l', chatMessages i (run qs s) = Some (l ++ l'))
  /\ (forall g, findById g_id i (groupsC s) = Some g ->
        exists g' l', findById g_id i (groupsC (run qs s)) = Some g'
                      /\ g_name g' = g_name g
                      /\ g_messages g' = g_messages g ++ l').
Proof.
  revert s. induction qs as [|q t IH]; intros s; simpl.
  - split.
    + intros l H. exists []. now rewrite app_nil_r.
    + intros g H. exists g, []. now rewrite app_nil_r.
  - destruct (IH (snd (handle q s))) as [IHc IHg]. split.
    + intros l H. destruct (handle_chat_messages q s i H) as [l1 H1].
      destruct (IHc _ H1) as [l2 H2]. exists (l1 ++ l2).
      now rewrite app_assoc.
    + intros g H.
      destruct (handle_group_kept q s i H) as [g1 [l1 [H1 [N1 [_ M1]]]]].
      destruct (IHg _ H1) as [g2 [l2 [H2 [N2 M2]]]].
      exists g2, (l1 ++ l2). rewrite H2, N2, N1, M2, M1.
      now rewrite app_assoc.
Qed.

Lemma conversations_append_only_witness :
  exists l', chatMessages 20
               (run [PostMessage 2 "yo" (Some 20) None 8;
                     SetReadStatus 30 true;
                     PostMessage 1 "ok" (Some 20) (Some 10) 9] demo)
             = Some ([30] ++ l').
Proof.
  apply (proj1 (conversations_append_only
                  [PostMessage 2 "yo" (Some 20) None 8;
                   SetReadStatus 30 true;
                   PostMessage 1 "ok" (Some 20) (Some 10) 9] demo 20)).
  reflexivity.
Defined.

(** ** All handlers *)

(** When [acceptFriendRequest] or [removeFriend] answers with an error
    after a write, the actor has named themselves. *)
Lemma friends_error (q : Request) (s : State) (actor : ObjectId)
    (name : string) :
  q = AcceptFriendRequest actor name \/ q = RemoveFriend actor name ->
  400 <= status (fst (handle q s)) ->
  snd (handle q s) = s
  \/ (status (fst (handle q s)) = Internal
      /\ exists B, findByUsername name (users s) = Some B /\ u_id B = actor).
Proof.
  intros [-> | ->]; simpl;
    unfold acceptFriendRequest, removeFriend;
    (destruct (falsy name); [now left|]);
    (destruct (findByUsername name (users s)) as [B|]; [|now left]);
    (destruct (findById u_id actor (users s)) as [A|] eqn:HA; [|now left]);
    cbv zeta;
    match goal with
    | |- context [versionError ?w ?a B A] =>
        destruct (versionError w a B A) eqn:Hv
    end; simpl; intros H.
  - right. split; [reflexivity|]. exists B. split; [reflexivity|].
    apply versionError_iff in Hv. destruct Hv as [_ [_ Hid]].
    rewrite Hid. apply (findById_key _ _ _ HA).
  - exfalso. cbv [OK] in H. lia.
  - right. split; [reflexivity|]. exists B. split; [reflexivity|].
    apply versionError_iff in Hv. destruct Hv as [_ [_ Hid]].
    rewrite Hid. apply (findById_key _ _ _ HA).
  - exfalso. cbv [OK] in H. lia.
Qed.

(** X22.  A request that is answered with a status from 400 to 499 has
    written nothing: the state after it is the state before it.  A
    request that is answered with 500 has written nothing either, unless
    it is an [acceptFriendRequest] or a [removeFriend] in which the actor
    names themselves, where what the first save wrote stays. *)
Theorem error_writes_nothing (q : Request) (s : State) :
  (400 <= status (fst (handle q s)) < 500 -> snd (handle q s) = s)
  /\ (status (fst (handle q s)) = 500 ->
      snd (handle q s) = s
      \/ exists actor name B,
           (q = AcceptFriendRequest actor name
            \/ q = RemoveFriend actor name)
           /\ findByUsername name (users s) = Some B /\ u_id B = actor).
Proof.
  assert (Hfriends : forall actor name,
            q = AcceptFriendRequest actor name
            \/ q = RemoveFriend actor name ->
            (400 <= status (fst (handle q s)) < 500 -> snd (handle q s) = s)
            /\ (status (fst (handle q s)) = 500 ->
                snd (handle q s) = s
                \/ exists actor name B,
                     (q = AcceptFriendRequest actor name
                      \/ q = RemoveFriend actor name)
                     /\ findByUsername name (users s) = Some B
                     /\ u_id B = actor)).
  { intros actor name Hq. split.
    - intros [H1 H2].
      destruct (friends_error s Hq H1) as [E|[E _]]; [assumption|].
      rewrite E in H2. cbv [Internal] in H2. lia.
    - intros H.
      destruct (friends_error s Hq) as [E|[_ [B [HB Hid]]]].
      + rewrite H. lia.
      + now left.
      + right. now exists actor, name, B. }
  destruct q; try (eapply Hfriends; eauto; fail); clear Hfriends;
    simpl; unfold_handlers; break_handler; simpl;
    (split; [intros [H1 H2] | intros H]);
    try reflexivity; try (left; reflexivity);
    exfalso; cbv [OK Created] in *; try lia; try discriminate.
Qed.

Lemma error_writes_nothing_witness :
  snd (handle (AddGroupMember 3 10 3) demo) = demo
  /\ snd (handle (SendFriendRequest 1 "dave") demo) = demo.
Proof.
  split.
  - apply (proj1 (error_writes_nothing (AddGroupMember 3 10 3) demo)).
    simpl. cbv [Forbidden]. lia.
  - apply (proj1 (error_writes_nothing (SendFriendRequest 1 "dave") demo)).
    simpl. cbv [NotFound]. lia.
Defined.

(** X28.  An actor who accepts a pending request of their own is
    answered with 500 after a write: the second save throws, so the
    actor is stored once more among their own friends, the request stays
    pending, and every other user is left as they were. *)
Theorem acceptFriendRequest_own_request (actor : ObjectId) (name : string)
    (s : State) (A : User) :
  falsy name = false ->
  findById u_id actor (users s) = Some A ->
  findByUsername name (users s) = Some A ->
  In actor (friendRequests A) ->
  let s1 := snd (acceptFriendRequest actor name s) in
  fst (acceptFriendRequest actor name s) = sendStatus Internal
  /\ friendsOf actor s1 = friends A ++ [actor]
  /\ requestsOf actor s1 = friendRequests A
  /\ (forall i, i <> actor ->
        findById u_id i (users s1) = findById u_id i (users s)).
Proof.
  intros Hn HA HB Hin. pose proof (findById_key _ _ _ HA) as HkA.
  assert (Hv : versionError true
                 (changed (without (u_id A) (friendRequests A))
                    (friendRequests A)) A A = true).
  { apply versionError_iff. rewrite changed_without, HkA.
    apply includes_In in Hin. now rewrite Hin. }
  unfold acceptFriendRequest, friendsOf, requestsOf.
  rewrite Hn, HB, HA. cbv zeta. rewrite Hv. simpl. rewrite HkA.
  rewrite findById_updateById by reflexivity.
  rewrite Nat.eqb_refl, HA. simpl.
  split; [reflexivity|]. split; [reflexivity|]. split; [reflexivity|].
  intros i Hi. rewrite findById_updateById by reflexivity.
  destruct (Nat.eqb_spec actor i); [congruence | reflexivity].
Qed.

Lemma acceptFriendRequest_own_request_witness :
  fst (acceptFriendRequest 1 "alice" selfRequest) = sendStatus Internal
  /\ friendsOf 1 (snd (acceptFriendRequest 1 "alice" selfRequest)) = [1]
  /\ requestsOf 1 (snd (acceptFriendRequest 1 "alice" selfRequest)) = [2; 1].
Proof.
  destruct (@acceptFriendRequest_own_request 1 "alice" selfRequest
              (mkUser 1 "alice" "h1" false [] [2; 1] [10])
              eq_refl eq_refl eq_refl) as [H1 [H2 [H3 _]]].
  - simpl. auto.
  - split; [exact H1|]. split; [exact H2 | exact H3].
Defined.

(** X23.  Only the socket handlers touch the rooms, and they touch
    nothing else: an HTTP request leaves every subscription as it is, and
    [joinChat] and [leaveChat] leave users, chats, groups and messages as
    they are. *)
Theorem rooms_and_database_apart (q : Request) (s : State) :
  match q with
  | JoinChat _ _ | LeaveChat _ _ =>
      users (snd (handle q s)) = users s
      /\ chats (snd (handle q s)) = chats s
      /\ groupsC (snd (handle q s)) = groupsC s
      /\ messages (snd (handle q s)) = messages s
  | _ => rooms (snd (handle q s)) = rooms s
  end.
Proof.
  destruct q; simpl; unfold_handlers; break_handler; simpl;
    repeat split; reflexivity.
Qed.

(** ** The socket handlers *)

Lemma inRoom_subscribers (x : nat) (c : ObjectId) (s : State) :
  inRoom x c s = true <-> In x (subscribers (Some c) s).
Proof.
  unfold inRoom, subscribers. rewrite existsb_exists, in_map_iff. split.
  - intros [[y d] [Hin H]]. simpl in H. apply andb_true_iff in H.
    destruct H as [Hy Hd]. apply Nat.eqb_eq in Hy. apply Nat.eqb_eq in Hd.
    subst. exists (x, c). split; [reflexivity|].
    apply filter_In. simpl. now rewrite Nat.eqb_refl.
  - intros [[y d] [Hy Hin]]. simpl in Hy. subst y.
    apply filter_In in Hin. destruct Hin as [Hin Hd]. simpl in Hd.
    exists (x, d). split; [assumption|]. simpl.
    now rewrite Nat.eqb_refl, Hd.
Qed.

(** X24.  Joining and leaving a channel: after [joinChat] the session is
    among the subscribers of the channel, and joining again changes
    nothing; after [leaveChat] it is not among them; leaving a channel
    the session never joined changes nothing; and neither handler changes
    who else is subscribed to the channel or what other channels the
    session is subscribed to. *)
Theorem joinChat_leaveChat_spec (x : nat) (c : ObjectId) (s : State) :
  In x (subscribers (Some c) (joinChat x c s))
  /\ joinChat x c (joinChat x c s) = joinChat x c s
  /\ ~ In x (subscribers (Some c) (leaveChat x c s))
  /\ (~ In x (subscribers (Some c) s) -> leaveChat x c s = s)
  /\ (forall y d, (y, d) <> (x, c) ->
        (In y (subscribers (Some d) (joinChat x c s))
         <-> In y (subscribers (Some d) s))
        /\ (In y (subscribers (Some d) (leaveChat x c s))
            <-> In y (subscribers (Some d) s))).
Proof.
  assert (Hjoin : inRoom x c (joinChat x c s) = true).
  { unfold joinChat. destruct (inRoom x c s) eqn:E; [assumption|].
    unfold inRoom. simpl. rewrite existsb_app. simpl.
    now rewrite !Nat.eqb_refl, orb_true_r. }
  split; [now apply inRoom_subscribers|].
  split; [unfold joinChat at 1; now rewrite Hjoin|].
  split.
  { rewrite <- inRoom_subscribers. unfold inRoom, leaveChat. simpl.
    intros H. apply existsb_exists in H. destruct H as [r [Hin Hr]].
    apply filter_In in Hin. destruct Hin as [_ Hn].
    rewrite Hr in Hn. discriminate. }
  split.
  { rewrite <- inRoom_subscribers. intros H.
    apply not_true_is_false in H. unfold leaveChat.
    assert (E : filter (fun r => negb ((fst r =? x) && (snd r =? c)))
                  (rooms s) = rooms s).
    { unfold inRoom in H. clear Hjoin.
      induction (rooms s) as [|r t IH]; simpl in *; [reflexivity|].
      apply orb_false_iff in H. destruct H as [H1 H2].
      rewrite H1. simpl. now rewrite IH. }
    rewrite E. now destruct s. }
  intros y d Hne.
  assert (Hoff : (y =? x) && (d =? c) = false).
  { apply andb_false_iff.
    destruct (Nat.eqb_spec y x), (Nat.eqb_spec d c); subst; auto.
    congruence. }
  rewrite <- !inRoom_subscribers. split.
  - unfold joinChat. destruct (inRoom x c s); [reflexivity|].
    unfold inRoom. simpl. rewrite existsb_app. simpl.
    now rewrite Nat.eqb_sym, (Nat.eqb_sym c d), Hoff, !orb_false_r.
  - unfold inRoom, leaveChat. simpl. rewrite !existsb_exists. split.
    + intros [r [Hin Hr]]. apply filter_In in Hin. exists r. tauto.
    + intros [r [Hin Hr]]. exists r. split; [|assumption].
      apply filter_In. split; [assumption|].
      apply andb_true_iff in Hr. destruct Hr as [Hy Hd].
      apply Nat.eqb_eq in Hy. apply Nat.eqb_eq in Hd.
      rewrite Hy, Hd, Hoff. reflexivity.
Qed.

Lemma joinChat_leaveChat_spec_witness :
  leaveChat 7 20 demo = demo
  /\ (In 100 (subscribers (Some 20) (leaveChat 7 20 demo))
      <-> In 100 (subscribers (Some 20) demo)).
Proof.
  destruct (joinChat_leaveChat_spec 7 20 demo) as [_ [_ [_ [H1 H2]]]].
  split.
  - apply H1. simpl. intros [E|[]]. discriminate.
  - apply (H2 100 20). intros E. discriminate.
Defined.

(** ** The direct chat of two users *)

Lemma find_first (A : Type) (p : A -> bool) (l : list A) (x : A) :
  find p l = Some x ->
  exists l1 l2, l = l1 ++ x :: l2 /\ forall y, In y l1 -> p y = false.
Proof.
  induction l as [|y t IH]; simpl; [discriminate|].
  destruct (p y) eqn:E.
  - intros [= ->]. exists [], t. split; [reflexivity|]. intros z [].
  - intros H. destruct (IH H) as [l1 [l2 [-> Hl1]]].
    exists (y :: l1), l2. split; [reflexivity|].
    intros z [<-|Hz]; [assumption | now apply Hl1].
Qed.

(** X25.  The chat [me] looks up for a friend is the first stored chat
    with exactly two participant entries that holds both users: the
    chat found is of that kind and no chat stored before it is; the
    lookup gives the same chat whichever of the two asks, and gives none
    only when no stored chat is of that kind. *)
Theorem findDirectChat_spec (a b : ObjectId) (l : list Chat) :
  findDirectChat a b l = findDirectChat b a l
  /\ (forall c, findDirectChat a b l = Some c ->
        In c l /\ In a (c_participants c) /\ In b (c_participants c)
        /\ List.length (c_participants c) = 2)
  /\ (forall c, findDirectChat a b l = Some c ->
        exists l1 l2,
          l = l1 ++ c :: l2
          /\ forall c', In c' l1 ->
                ~ (In a (c_participants c') /\ In b (c_participants c')
                   /\ List.length (c_participants c') = 2))
  /\ (findDirectChat a b l = None ->
      forall c, In c l -> In a (c_participants c) ->
                In b (c_participants c) ->
                List.length (c_participants c) <> 2).
Proof.
  unfold findDirectChat. split; [|split; [|split]].
  - induction l as [|c t IH]; simpl; [reflexivity|].
    rewrite IH.
    now rewrite (andb_comm (includes (c_participants c) a)).
  - intros c H. apply find_some in H. destruct H as [Hin H].
    apply andb_true_iff in H. destruct H as [H H2].
    apply andb_true_iff in H. destruct H as [Ha Hb].
    apply includes_In in Ha. apply includes_In in Hb.
    apply Nat.eqb_eq in H2. auto.
  - intros c H. destruct (find_first _ _ H) as [l1 [l2 [-> Hl1]]].
    exists l1, l2. split; [reflexivity|].
    intros c' Hc' [Ha [Hb Hlen]]. specialize (Hl1 c' Hc').
    apply includes_In in Ha. apply includes_In in Hb.
    apply Nat.eqb_eq in Hlen. rewrite Ha, Hb, Hlen in Hl1. discriminate.
  - intros H c Hin Ha Hb Hlen.
    apply (find_none _ _ H) in Hin.
    apply includes_In in Ha. apply includes_In in Hb.
    apply Nat.eqb_eq in Hlen. rewrite Ha, Hb, Hlen in Hin. discriminate.
Qed.

Lemma findDirectChat_spec_witness :
  exists c, findDirectChat 2 1 (chats demo) = Some c
            /\ In 1 (c_participants c) /\ In 2 (c_participants c)
            /\ exists l2, chats demo = [] ++ c :: l2.
Proof.
  exists (mkChat 20 [1; 2] [30]).
  destruct (findDirectChat_spec 1 2 (chats demo)) as [Hs [H [Hfirst _]]].
  split; [now rewrite <- Hs|].
  destruct (H (mkChat 20 [1; 2] [30]) eq_refl) as [_ [Ha [Hb _]]].
  split; [exact Ha|]. split; [exact Hb|].
  destruct (Hfirst (mkChat 20 [1; 2] [30]) eq_refl) as [l1 [l2 [E _]]].
  destruct l1 as [|c1 l1]; simpl in E.
  - exists l2. exact E.
  - exists []. injection E as _ E. destruct l1; discriminate.
Defined.

Lemma findDirectChat_app (a b : ObjectId) (l l' : list Chat) :
  findDirectChat a b (l ++ l') =
  match findDirectChat a b l with
  | Some c => Some c
  | None => findDirectChat a b l'
  end.
Proof.
  unfold findDirectChat. induction l as [|c t IH]; simpl; [reflexivity|].
  now destruct (includes (c_participants c) a
                && includes (c_participants c) b
                && (List.length (c_participants c) =? 2)).
Qed.

(** X26.  [createChat] does not look for an existing chat of the pair:
    asked for a chat of the requester and one other user it answers 201
    and stores a new chat in every case.  When the two had no direct chat
    the new one becomes their direct chat; when they had one, that one
    stays their direct chat and the new chat is stored beside it. *)
Theorem createChat_direct (a b : ObjectId) (s : State) :
  let s1 := snd (createChat a [a; b] s) in
  let c := mkChat (next_id s) [a; b] [] in
  fst (createChat a [a; b] s) = mkResponse Created (BChat c)
  /\ In c (chats s1)
  /\ (findDirectChat a b (chats s) = None ->
      findDirectChat a b (chats s1) = Some c)
  /\ (forall old, findDirectChat a b (chats s) = Some old ->
        findDirectChat a b (chats s1) = Some old).
Proof.
  unfold createChat, includes. simpl. rewrite Nat.eqb_refl. simpl.
  split; [reflexivity|].
  split; [apply in_or_app; right; now left|].
  split.
  - intros H. rewrite findDirectChat_app, H.
    unfold findDirectChat, includes. simpl.
    now rewrite !Nat.eqb_refl, orb_true_r.
  - intros old H. now rewrite findDirectChat_app, H.
Qed.

Lemma createChat_direct_witness :
  findDirectChat 1 3 (chats (snd (createChat 1 [1; 3] demo)))
  = Some (mkChat 40 [1; 3] [])
  /\ findDirectChat 1 2 (chats (snd (createChat 1 [1; 2] demo)))
     = Some (mkChat 20 [1; 2] [30])
  /\ In (mkChat 40 [1; 2] []) (chats (snd (createChat 1 [1; 2] demo))).
Proof.
  destruct (createChat_direct 1 3 demo) as [_ [_ [H1 _]]].
  destruct (createChat_direct 1 2 demo) as [_ [H2 [_ H3]]].
  split; [exact (H1 eq_refl)|].
  split; [exact (H3 _ eq_refl) | exact H2].
Defined.

(** ** [me] and [listRelationships] *)

(** X27.  [me] answers 500 to an actor that is not stored and writes
    nothing; for a stored actor it lists the same friends and the same
    requests, in the same order, as [listRelationships], and the chat id
    it attaches to a friend is that of the direct chat of the two. *)
Theorem me_spec (actor : ObjectId) (s : State) :
  snd (me actor s) = s
  /\ (findById u_id actor (users s) = None -> fst (me actor s) = thrown)
  /\ (forall A, findById u_id actor (users s) = Some A ->
        exists fs rs gs,
          fst (me actor s)
          = mkResponse OK (BMe actor (username A) (connected A) fs rs gs)
          /\ fst (listRelationships actor s)
             = mkResponse OK
                 (BRelations
                    (map (fun f => mkIdentity (f_id f) (f_username f)) fs)
                    rs)
          /\ (forall f, In f fs ->
                f_chatId f
                = option_map c_id (findDirectChat actor (f_id f) (chats s)))).
Proof.
  unfold me, listRelationships.
  destruct (findById u_id actor (users s)) as [A|] eqn:HA.
  - split; [reflexivity|]. split; [discriminate|].
    intros A' [= <-]. rewrite (findById_key _ _ _ HA).
    eexists. eexists. eexists. split; [reflexivity|]. split.
    + rewrite map_map. reflexivity.
    + intros f Hf. apply in_map_iff in Hf.
      destruct Hf as [u [<- _]]. reflexivity.
  - split; [reflexivity|]. split; [reflexivity | discriminate].
Qed.

Lemma me_spec_witness :
  fst (me 9 demo) = thrown
  /\ exists fs rs gs,
       fst (me 1 demo) = mkResponse OK (BMe 1 "alice" false fs rs gs)
       /\ fst (listRelationships 1 demo)
          = mkResponse OK
              (BRelations
                 (map (fun f => mkIdentity (f_id f) (f_username f)) fs) rs).
Proof.
  split.
  - apply (proj1 (proj2 (me_spec 9 demo))). reflexivity.
  - destruct (proj2 (proj2 (me_spec 1 demo)) alice eq_refl)
      as [fs [rs [gs [H1 [H2 _]]]]].
    exists fs, rs, gs. split; [exact H1 | exact H2].
Defined.
